(** * The pipeline factory [create_pipeline] of
      [training_pipeline/pipeline/pipeline.py]

    The module holds one function.  It instantiates nine components of the
    TFX framework, connects their channels, and hands the list to the
    framework's [Pipeline] constructor.  Everything the function calls is
    foreign code; what belongs to the function is the order of the calls,
    the keyword arguments of each call, two [is not None] tests, two
    subscript reads of [modules] and two subscript writes to
    [hf_pusher_args].

    The embedding follows that split.  The function is a program in a
    state-and-exception monad.  The state holds the dictionaries the
    caller passed in (by reference, so that aliasing between arguments is
    visible), the log of the foreign calls made so far, and the counter
    that gives each constructed component its identity.  The foreign code
    is a parameter of the development: an oracle that says, for each call,
    whether it raises, and what it does to the dictionaries. *)

From stdpp Require Import gmap strings list fin_maps.

Open Scope string_scope.
Open Scope list_scope.

(** ** Values *)

(** The component classes the module imports (lines 6-26). *)
Inductive ComponentKind :=
| ImportExampleGen
| StatisticsGen
| SchemaGen
| Transform
| VertexTrainer
| Resolver
| Evaluator
| VertexPusher
| HFPusher.

#[export] Instance ComponentKind_eq_dec : EqDecision ComponentKind.
Proof. solve_decision. Defined.

(** The artifact types named in the source (line 24). *)
Inductive ArtifactType := Model | ModelBlessing.

(** A channel is either an entry of some component's [outputs], which
    remembers the component that produces it, or one made on the spot by
    [Channel(type=T)], which has no producer. *)
Inductive Channel :=
| OutputChannel (producer : nat) (output_key : string)
| TypedChannel (type : ArtifactType).

(** [example_gen_pb2.Input.Split(name=..., pattern=...)]. *)
Record Split := { split_name : string; split_pattern : string }.

(** Python values that reach the function.  A dictionary is a reference
    into the heap; protobuf messages and configuration objects the
    function only passes along are opaque. *)
Inductive value :=
| VNone
| VStr (s : string)
| VOpaque (repr : string)
| VDict (ref : nat)
| VChannel (c : Channel)
| VInput (splits : list Split)
| VClass (qualname : string).

Abbreviation dict := (gmap string value).
Abbreviation heap_t := (gmap nat dict).

(** An [Optional[Dict]] argument as the value passed on to a callee. *)
Definition of_optional_dict (o : option nat) : value :=
  match o with Some l => VDict l | None => VNone end.

(** A dictionary display [{k1: v1, ...}], also used for the keyword
    arguments of a call: the items are stored left to right, so a later
    item with the same key replaces an earlier one. *)
Definition dict_display (items : list (string * value)) : dict :=
  foldl (fun d kv => <[kv.1 := kv.2]> d) ∅ items.

(** The value a display binds to a key, read off its items. *)
Fixpoint last_bound (key : string) (items : list (string * value))
  : option value :=
  match items with
  | [] => None
  | (k, v) :: rest =>
      match last_bound key rest with
      | Some w => Some w
      | None => if String.eqb k key then Some v else None
      end
  end.

(** ** Components and pipelines *)

(** A component object: [node] is its identity, [init_args] the keyword
    arguments its constructor received, [component_id] what [with_id]
    set, [beam_pipeline_args] what [with_beam_pipeline_args] added. *)
Record Component := {
  node : nat;
  kind : ComponentKind;
  init_args : dict;
  component_id : option string;
  beam_pipeline_args : list value
}.

(** A pipeline object, described like a component by what its
    constructor received: [components] is the list passed as
    [components=], in the order it was passed.  The list the object
    itself then shows is another matter, decided by the framework; see
    [built_components] below. *)
Record Pipeline := {
  pipeline_name : string;
  pipeline_root : string;
  components : list Component;
  enable_cache : bool;
  metadata_connection_config : option value
}.

(** The channel [c.outputs[key]]. *)
Definition output_of (c : Component) (key : string) : value :=
  VChannel (OutputChannel (node c) key).

(** What a component was given for a parameter of its constructor. *)
Definition input_of (c : Component) (param : string) : option value :=
  init_args c !! param.

(** ** Foreign calls, exceptions, state *)

(** The calls into the framework.  Method calls name their receiver by
    its identity. *)
Inductive call :=
| Init (k : ComponentKind) (kwargs : dict)
| WithBeamPipelineArgs (self : nat) (args : list value)
| WithId (self : nat) (new_id : string)
| PipelineInit (p : Pipeline).

(** A logged call with its outcome: [None] when it returned, [Some msg]
    when it raised. *)
Abbreviation event := (call * option string)%type.

Inductive exn :=
| KeyError (key : string)
| TypeError (msg : string)
| Raised (by_call : call) (msg : string).

Record state := {
  heap : heap_t;
  trace : list event;
  next_node : nat
}.

(** The framework: what a call does to the caller's dictionaries and
    whether it raises, which output keys a component class declares, and
    in which order a pipeline object lists the components it was built
    from. *)
Record Framework := {
  fw_call : state -> call -> heap_t * option string;
  fw_output : ComponentKind -> string -> bool;
  fw_components : list Component -> list Component
}.

(** The [components] attribute of the pipeline object the framework has
    built from [p]. *)
Definition built_components (F : Framework) (p : Pipeline)
  : list Component :=
  fw_components F (components p).

(** ** The monad *)

Definition M (A : Type) : Type := state -> state * (exn + A).

Definition ret {A} (a : A) : M A := fun s => (s, inr a).

Definition raise {A} (e : exn) : M A := fun s => (s, inl e).

Definition bind {A B} (m : M A) (k : A -> M B) : M B :=
  fun s =>
    match m s with
    | (s1, inr a) => k a s1
    | (s1, inl e) => (s1, inl e)
    end.

Notation "x <- m ;; k" := (bind m (fun x => k))
  (at level 100, m at next level, right associativity).
Notation "m ;;; k" := (bind m (fun _ => k))
  (at level 100, right associativity).

(** ** Primitive operations *)

Section Primitives.
Variable F : Framework.

(** A call into the framework: logged with its outcome, its effect on
    the dictionaries kept whether it returns or raises. *)
Definition foreign (c : call) : M unit :=
  fun s =>
    let '(h, r) := fw_call F s c in
    let s1 := {| heap := h; trace := trace s ++ [(c, r)];
                 next_node := next_node s |} in
    match r with
    | Some msg => (s1, inl (Raised c msg))
    | None => (s1, inr tt)
    end.

(** A fresh identity for a component the framework has just built. *)
Definition fresh : M nat :=
  fun s =>
    ({| heap := heap s; trace := trace s; next_node := S (next_node s) |},
     inr (next_node s)).

(** A constructor call [K(k1=v1, ...)]. *)
Definition construct (k : ComponentKind) (kwargs : dict) : M Component :=
  foreign (Init k kwargs) ;;;
  n <- fresh ;;
  ret {| node := n; kind := k; init_args := kwargs;
         component_id := None; beam_pipeline_args := [] |}.

(** [c.with_beam_pipeline_args(args)]: changes [c] in place.  The one
    reference to [c] at that point is the local variable, which the
    caller of this operation rebinds to the result. *)
Definition with_beam_pipeline_args (c : Component) (args : list value)
  : M Component :=
  foreign (WithBeamPipelineArgs (node c) args) ;;;
  ret {| node := node c; kind := kind c; init_args := init_args c;
         component_id := component_id c;
         beam_pipeline_args := beam_pipeline_args c ++ args |}.

(** [c.with_id(new_id)]: returns [c] itself, renamed. *)
Definition with_id (c : Component) (new_id : string) : M Component :=
  foreign (WithId (node c) new_id) ;;;
  ret {| node := node c; kind := kind c; init_args := init_args c;
         component_id := Some new_id;
         beam_pipeline_args := beam_pipeline_args c |}.

(** [c.outputs[key]]. *)
Definition outputs (c : Component) (key : string) : M value :=
  if fw_output F (kind c) key then ret (output_of c key)
  else raise (KeyError key).

(** [d[key]] for a dictionary argument. *)
Definition getitem (d : nat) (key : string) : M value :=
  fun s =>
    match (heap s !!! d) !! key with
    | Some v => (s, inr v)
    | None => (s, inl (KeyError key))
    end.

(** [d[key] = v] for an [Optional[Dict]] argument. *)
Definition setitem (d : option nat) (key : string) (v : value) : M unit :=
  fun s =>
    match d with
    | Some l =>
        ({| heap := <[l := <[key := v]> (heap s !!! l)]> (heap s);
            trace := trace s; next_node := next_node s |}, inr tt)
    | None =>
        (s, inl (TypeError
                   "'NoneType' object does not support item assignment"))
    end.

(** The items of [d] where a call unpacks it into keyword arguments. *)
Definition unpack (d : option nat) : M dict :=
  fun s =>
    match d with
    | Some l => (s, inr (heap s !!! l))
    | None =>
        (s, inl (TypeError
                   "argument after ** must be a mapping, not NoneType"))
    end.

(** [pipeline.Pipeline(...)].  The result stands for the object built
    from the keyword arguments [p]; it keeps them as passed.  How the
    object orders its own component list is [built_components]. *)
Definition new_pipeline (p : Pipeline) : M Pipeline :=
  foreign (PipelineInit p) ;;; ret p.

(** ** [create_pipeline] (lines 29-130) *)

Definition create_pipeline
    (pipeline_name pipeline_root data_path : string)
    (modules : nat)
    (train_args eval_args eval_configs : value)
    (metadata_connection_config : option value)
    (ai_platform_training_args ai_platform_serving_args : option nat)
    (example_gen_beam_args transform_beam_args : option (list value))
    (hf_pusher_args : option nat) : M Pipeline :=
  let components : list Component := [] in
  let input_config :=
    VInput [ {| split_name := "train"; split_pattern := "train-*.tfrec" |};
             {| split_name := "eval"; split_pattern := "val-*.tfrec" |} ] in
  example_gen <-
    construct ImportExampleGen
      (dict_display [("input_base", VStr data_path);
                     ("input_config", input_config)]) ;;
  example_gen <-
    match example_gen_beam_args with
    | Some args => with_beam_pipeline_args example_gen args
    | None => ret example_gen
    end ;;
  let components := components ++ [example_gen] in
  examples <- outputs example_gen "examples" ;;
  statistics_gen <-
    construct StatisticsGen (dict_display [("examples", examples)]) ;;
  let components := components ++ [statistics_gen] in
  statistics <- outputs statistics_gen "statistics" ;;
  schema_gen <-
    construct SchemaGen (dict_display [("statistics", statistics)]) ;;
  let components := components ++ [schema_gen] in
  examples <- outputs example_gen "examples" ;;
  schema <- outputs schema_gen "schema" ;;
  preprocessing_fn <- getitem modules "preprocessing_fn" ;;
  transform <-
    construct Transform
      (dict_display [("examples", examples);
                     ("schema", schema);
                     ("preprocessing_fn", preprocessing_fn)]) ;;
  transform <-
    match transform_beam_args with
    | Some args => with_beam_pipeline_args transform args
    | None => ret transform
    end ;;
  let components := components ++ [transform] in
  run_fn <- getitem modules "training_fn" ;;
  transformed_examples <- outputs transform "transformed_examples" ;;
  transform_graph <- outputs transform "transform_graph" ;;
  schema <- outputs schema_gen "schema" ;;
  let trainer_args :=
    dict_display [("run_fn", run_fn);
                  ("transformed_examples", transformed_examples);
                  ("transform_graph", transform_graph);
                  ("schema", schema);
                  ("train_args", train_args);
                  ("eval_args", eval_args);
                  ("custom_config",
                   of_optional_dict ai_platform_training_args)] in
  trainer <- construct VertexTrainer trainer_args ;;
  let components := components ++ [trainer] in
  model_resolver <-
    construct Resolver
      (dict_display [("strategy_class", VClass "LatestBlessedModelResolver");
                     ("model", VChannel (TypedChannel Model));
                     ("model_blessing",
                      VChannel (TypedChannel ModelBlessing))]) ;;
  model_resolver <- with_id model_resolver "latest_blessed_model_resolver" ;;
  let components := components ++ [model_resolver] in
  examples <- outputs example_gen "examples" ;;
  model <- outputs trainer "model" ;;
  baseline_model <- outputs model_resolver "model" ;;
  evaluator <-
    construct Evaluator
      (dict_display [("examples", examples);
                     ("model", model);
                     ("baseline_model", baseline_model);
                     ("eval_config", eval_configs)]) ;;
  let components := components ++ [evaluator] in
  model <- outputs trainer "model" ;;
  blessing <- outputs evaluator "blessing" ;;
  let pusher_args :=
    dict_display [("model", model);
                  ("model_blessing", blessing);
                  ("custom_config",
                   of_optional_dict ai_platform_serving_args)] in
  pusher <- construct VertexPusher pusher_args ;;
  let components := components ++ [pusher] in
  model <- outputs trainer "model" ;;
  setitem hf_pusher_args "model" model ;;;
  blessing <- outputs evaluator "blessing" ;;
  setitem hf_pusher_args "model_blessing" blessing ;;;
  kwargs <- unpack hf_pusher_args ;;
  hf_pusher <- construct HFPusher kwargs ;;
  let components := components ++ [hf_pusher] in
  new_pipeline
    {| pipeline_name := pipeline_name;
       pipeline_root := pipeline_root;
       components := components;
       enable_cache := true;
       metadata_connection_config := metadata_connection_config |}.

End Primitives.

Arguments dict_display : simpl never.

(** ** A framework and a call to run the function on *)

(** The output keys the function reads, by component class. *)
Definition declared_outputs (k : ComponentKind) : list string :=
  match k with
  | ImportExampleGen => ["examples"]
  | StatisticsGen => ["statistics"]
  | SchemaGen => ["schema"]
  | Transform => ["transformed_examples"; "transform_graph"]
  | VertexTrainer => ["model"]
  | Resolver => ["model"; "model_blessing"]
  | Evaluator => ["blessing"]
  | VertexPusher => []
  | HFPusher => []
  end.

(** *** The order in which TFX lists a pipeline's components

    A TFX pipeline object does not keep the list it was given: it sorts
    the components topologically by the producer relation, layer by
    layer, and each layer by component id. *)

(** The id of a component that was given none: the name of its class. *)
Definition default_id (k : ComponentKind) : string :=
  match k with
  | ImportExampleGen => "ImportExampleGen"
  | StatisticsGen => "StatisticsGen"
  | SchemaGen => "SchemaGen"
  | Transform => "Transform"
  | VertexTrainer => "Trainer"
  | Resolver => "Resolver"
  | Evaluator => "Evaluator"
  | VertexPusher => "Pusher"
  | HFPusher => "HFPusher"
  end.

Definition id_of (c : Component) : string :=
  default (default_id (kind c)) (component_id c).

(** The components whose outputs [c] was given. *)
Definition upstream (c : Component) : list nat :=
  omap (fun kv : string * value =>
          match kv.2 with
          | VChannel (OutputChannel producer _) => Some producer
          | _ => None
          end)
       (map_to_list (init_args c)).

(** [c] can be placed once all its producers are. *)
Definition ready (placed : list nat) (c : Component) : bool :=
  forallb (fun producer => bool_decide (producer ∈ placed)) (upstream c).

Fixpoint insert_by_id (c : Component) (l : list Component)
  : list Component :=
  match l with
  | [] => [c]
  | d :: rest =>
      if String.leb (id_of c) (id_of d) then c :: l
      else d :: insert_by_id c rest
  end.

Definition sort_by_id (l : list Component) : list Component :=
  foldr insert_by_id [] l.

(** One layer per round: the components that are ready, by id.  A list
    with a cycle, which TFX refuses, is left as it is. *)
Fixpoint layers (rounds : nat) (placed : list nat) (rest : list Component)
  : list Component :=
  match rounds with
  | 0 => rest
  | S rounds' =>
      match List.filter (ready placed) rest with
      | [] => rest
      | layer =>
          sort_by_id layer ++
          layers rounds' (placed ++ (node <$> layer))
            (List.filter (fun c => negb (ready placed c)) rest)
      end
  end.

Definition tfx_component_order (l : list Component) : list Component :=
  layers (length l) [] l.

(** A framework in which no call raises and no call touches the caller's
    dictionaries. *)
Definition quiet_framework : Framework :=
  {| fw_call := fun s _ => (heap s, None);
     fw_output := fun k key => bool_decide (key ∈ declared_outputs k);
     fw_components := tfx_component_order |}.

(** The same framework, except that the trainer's constructor raises. *)
Definition failing_trainer_framework : Framework :=
  {| fw_call := fun s c =>
       match c with
       | Init VertexTrainer _ => (heap s, Some "trainer rejected")
       | _ => (heap s, None)
       end;
     fw_output := fun k key => bool_decide (key ∈ declared_outputs k);
     fw_components := tfx_component_order |}.

(** A caller's heap: [modules] at 0, [hf_pusher_args] at 1 (with a stale
    entry under "model"), serving arguments at 2. *)
Definition sample_heap : heap_t :=
  <[0 := dict_display [("preprocessing_fn",
                        VStr "preprocessing.preprocessing_fn");
                       ("training_fn", VStr "training.run_fn")]]>
  (<[1 := dict_display [("username", VStr "user");
                        ("model", VStr "stale")]]>
  (<[2 := dict_display [("endpoint_name", VStr "segformer")]]> ∅)).

Definition sample_state : state :=
  {| heap := sample_heap; trace := []; next_node := 0 |}.

(** A heap whose [modules] dictionary is empty. *)
Definition no_modules_state : state :=
  {| heap := <[0 := ∅]> (<[1 := ∅]> ∅); trace := []; next_node := 0 |}.

Definition sample_run (F : Framework) (hf_pusher_args : option nat)
    (s : state) : state * (exn + Pipeline) :=
  create_pipeline F "segmentation" "gs://bucket/root" "gs://bucket/data" 0
    (VOpaque "TrainArgs") (VOpaque "EvalArgs") (VOpaque "EvalConfig")
    None None (Some 2) (Some [VStr "--runner=DataflowRunner"]) None
    hf_pusher_args s.

(** ** Vocabulary of the statements *)

(** [t'] is the log [t]; kept as a predicate so that a proof can name a
    log without writing it out. *)
Definition logged (t t' : list event) : Prop := t' = t.

(** The log entries of the guarded call
    [if args is not None: c.with_beam_pipeline_args(args)]. *)
Definition beam_calls (self : nat) (o : option (list value)) : list event :=
  match o with
  | Some args => [(WithBeamPipelineArgs self args, None)]
  | None => []
  end.

(** [down] was given, for its parameter [param], the channel
    [up.outputs[key]]. *)
Definition feeds (up : Component) (key : string)
    (down : Component) (param : string) : Prop :=
  input_of down param = Some (output_of up key).

(** The outcome of the sample call in the quiet framework, evaluated. *)
Definition sample_final_state : state :=
  Eval vm_compute in (sample_run quiet_framework (Some 1) sample_state).1.

Definition sample_pipeline : Pipeline :=
  Eval vm_compute in
    match (sample_run quiet_framework (Some 1) sample_state).2 with
    | inr p => p
    | inl _ =>
        {| pipeline_name := ""; pipeline_root := ""; components := [];
           enable_cache := false; metadata_connection_config := None |}
    end.

(** The component classes whose constructors a log shows, in call order. *)
Definition constructed (t : list event) : list ComponentKind :=
  omap (fun ev : event =>
          match ev.1 with Init k _ => Some k | _ => None end) t.

(** C6 as the specification words it, for the train-to-resolve arrow:
    the resolver's [model] and [model_blessing] are outputs of the
    trainer. *)
Definition resolver_fed_by_trainer (p : Pipeline) : Prop :=
  exists trainer model_resolver,
    components p !! 4 = Some trainer /\
    components p !! 5 = Some model_resolver /\
    (exists key, feeds trainer key model_resolver "model") /\
    (exists key, feeds trainer key model_resolver "model_blessing").


(** The receivers and arguments of the [with_beam_pipeline_args] calls in
    a log, in call order. *)
Definition beam_receivers (t : list event) : list (nat * list value) :=
  omap (fun ev : event =>
          match ev.1 with
          | WithBeamPipelineArgs self args => Some (self, args)
          | _ => None
          end) t.

(** A logged call that returned. *)
Definition returned (ev : event) : Prop := ev.2 = None.

(** The keys [create_pipeline] reads from [modules]. *)
Definition module_keys : list string := ["preprocessing_fn"; "training_fn"].

(** The exceptions that come from the function's own subscripts rather
    than from a foreign call: [KeyError] for a key missing from [modules]
    or from a component's [outputs], [TypeError] for an item assignment
    on [hf_pusher_args = None]. *)
Definition own_failure (F : Framework) (hf_pusher_args : option nat)
    (e : exn) : Prop :=
  match e with
  | KeyError key =>
      key ∈ module_keys \/ exists k, fw_output F k key = false
  | TypeError _ => hf_pusher_args = None
  | Raised _ _ => False
  end.

(** How a result [r] relates to the calls [t] logged on the way to it
    when nothing is caught: every call returned, except that a call that
    raised is the last one and its exception is the result. *)
Definition outcome {A} (P : exn -> Prop) (t : list event) (r : exn + A)
  : Prop :=
  match r with
  | inr _ => Forall returned t
  | inl (Raised c msg) =>
      exists t0, t = t0 ++ [(c, Some msg)] /\ Forall returned t0
  | inl e => Forall returned t /\ P e
  end.

(** A computation that only appends to the log and catches nothing. *)
Definition transparent {A} (P : exn -> Prop) (m : M A) : Prop :=
  forall s,
    exists t, trace (m s).1 = trace s ++ t /\ outcome P t (m s).2.

(** The claim that failures come from the framework. *)
Definition raised_by_framework (e : exn) : Prop :=
  exists c msg, e = Raised c msg.

(** The component classes in the order the source constructs them. *)
Definition assembly_order : list ComponentKind :=
  [ImportExampleGen; StatisticsGen; SchemaGen; Transform; VertexTrainer;
   Resolver; Evaluator; VertexPusher; HFPusher].

(** The [outputs] entries the source subscripts, by component class. *)
Definition outputs_read : list (ComponentKind * string) :=
  [(ImportExampleGen, "examples"); (StatisticsGen, "statistics");
   (SchemaGen, "schema"); (Transform, "transformed_examples");
   (Transform, "transform_graph"); (VertexTrainer, "model");
   (Resolver, "model"); (Evaluator, "blessing")].

(** The name, root and metadata configuration a pipeline was built with. *)
Definition labelled (p : Pipeline) (name root : string)
    (config : option value) : Prop :=
  pipeline_name p = name /\ pipeline_root p = root /\
  metadata_connection_config p = config.

(** The receivers and arguments of the [with_id] calls in a log, in call
    order. *)
Definition id_receivers (t : list event) : list (nat * string) :=
  omap (fun ev : event =>
          match ev.1 with
          | WithId self new_id => Some (self, new_id)
          | _ => None
          end) t.

(** The quiet framework, except that the constructor of HFPusher raises. *)
Definition failing_hf_pusher_framework : Framework :=
  {| fw_call := fun s c =>
       match c with
       | Init HFPusher _ => (heap s, Some "hub unreachable")
       | _ => (heap s, None)
       end;
     fw_output := fun k key => bool_decide (key ∈ declared_outputs k);
     fw_components := tfx_component_order |}.

(** ** Reasoning about runs *)

Section Runs.
Variable F : Framework.

Lemma bind_inr {A B} (m : M A) (k : A -> M B) s s' b :
  bind m k s = (s', inr b) ->
  exists a s1, m s = (s1, inr a) /\ k a s1 = (s', inr b).
Proof.
  unfold bind. destruct (m s) as [s1 [e|a]]; [discriminate|].
  intros H. exists a, s1. split; [reflexivity|exact H].
Qed.

Lemma bind_inl {A B} (m : M A) (k : A -> M B) s s' e :
  bind m k s = (s', inl e) ->
  m s = (s', inl e) \/
  exists a s1, m s = (s1, inr a) /\ k a s1 = (s', inl e).
Proof.
  unfold bind. destruct (m s) as [s1 [e1|a]].
  - intros [= -> ->]. left. reflexivity.
  - intros H. right. exists a, s1. split; [reflexivity|exact H].
Qed.

Lemma ret_inr {A} (a b : A) s s' :
  ret a s = (s', inr b) -> s' = s /\ b = a.
Proof. unfold ret. intros [= -> ->]. split; reflexivity. Qed.

Lemma foreign_inr c s s' u :
  foreign F c s = (s', inr u) ->
  exists h, fw_call F s c = (h, None) /\
    s' = {| heap := h; trace := trace s ++ [(c, None)];
            next_node := next_node s |}.
Proof.
  unfold foreign. destruct (fw_call F s c) as [h [msg|]]; [discriminate|].
  intros [= <- _]. exists h. split; reflexivity.
Qed.

Lemma construct_inr k kwargs s s' c :
  construct F k kwargs s = (s', inr c) ->
  exists h, fw_call F s (Init k kwargs) = (h, None) /\
    s' = {| heap := h; trace := trace s ++ [(Init k kwargs, None)];
            next_node := S (next_node s) |} /\
    c = {| node := next_node s; kind := k; init_args := kwargs;
           component_id := None; beam_pipeline_args := [] |}.
Proof.
  unfold construct. intros H.
  apply bind_inr in H as (u & s1 & H1 & H).
  apply foreign_inr in H1 as (h & Hh & ->).
  unfold bind, fresh, ret in H. cbn in H.
  injection H as <- <-. exists h. repeat split; assumption.
Qed.

Lemma with_beam_pipeline_args_inr c args s s' c' :
  with_beam_pipeline_args F c args s = (s', inr c') ->
  exists h, fw_call F s (WithBeamPipelineArgs (node c) args) = (h, None) /\
    s' = {| heap := h;
            trace := trace s ++ [(WithBeamPipelineArgs (node c) args, None)];
            next_node := next_node s |} /\
    c' = {| node := node c; kind := kind c; init_args := init_args c;
            component_id := component_id c;
            beam_pipeline_args := beam_pipeline_args c ++ args |}.
Proof.
  unfold with_beam_pipeline_args. intros H.
  apply bind_inr in H as (u & s1 & H1 & H).
  apply foreign_inr in H1 as (h & Hh & ->).
  apply ret_inr in H as [-> ->]. exists h. repeat split; assumption.
Qed.

Lemma with_id_inr c new_id s s' c' :
  with_id F c new_id s = (s', inr c') ->
  exists h, fw_call F s (WithId (node c) new_id) = (h, None) /\
    s' = {| heap := h; trace := trace s ++ [(WithId (node c) new_id, None)];
            next_node := next_node s |} /\
    c' = {| node := node c; kind := kind c; init_args := init_args c;
            component_id := Some new_id;
            beam_pipeline_args := beam_pipeline_args c |}.
Proof.
  unfold with_id. intros H.
  apply bind_inr in H as (u & s1 & H1 & H).
  apply foreign_inr in H1 as (h & Hh & ->).
  apply ret_inr in H as [-> ->]. exists h. repeat split; assumption.
Qed.

Lemma new_pipeline_inr p0 s s' p :
  new_pipeline F p0 s = (s', inr p) ->
  exists h, fw_call F s (PipelineInit p0) = (h, None) /\
    s' = {| heap := h; trace := trace s ++ [(PipelineInit p0, None)];
            next_node := next_node s |} /\
    p = p0.
Proof.
  unfold new_pipeline. intros H.
  apply bind_inr in H as (u & s1 & H1 & H).
  apply foreign_inr in H1 as (h & Hh & ->).
  apply ret_inr in H as [-> ->]. exists h. repeat split; assumption.
Qed.

Lemma outputs_inr c key s s' v :
  outputs F c key s = (s', inr v) ->
  fw_output F (kind c) key = true /\ s' = s /\ v = output_of c key.
Proof.
  unfold outputs. destruct (fw_output F (kind c) key); [|discriminate].
  intros H. apply ret_inr in H as [-> ->]. repeat split.
Qed.

Lemma getitem_inr d key s s' v :
  getitem d key s = (s', inr v) ->
  (heap s !!! d) !! key = Some v /\ s' = s.
Proof.
  unfold getitem. destruct ((heap s !!! d) !! key); [|discriminate].
  intros [= <- <-]. split; reflexivity.
Qed.

Lemma setitem_inr d key v s s' u :
  setitem d key v s = (s', inr u) ->
  exists l, d = Some l /\
    s' = {| heap := <[l := <[key := v]> (heap s !!! l)]> (heap s);
            trace := trace s; next_node := next_node s |}.
Proof.
  unfold setitem. destruct d as [l|]; [|discriminate].
  intros [= <- _]. exists l. split; reflexivity.
Qed.

Lemma unpack_inr d s s' kwargs :
  unpack d s = (s', inr kwargs) ->
  exists l, d = Some l /\ kwargs = heap s !!! l /\ s' = s.
Proof.
  unfold unpack. destruct d as [l|]; [|discriminate].
  intros [= <- <-]. exists l. repeat split.
Qed.

(** *** Successful steps, with the log and the heap named *)

Lemma construct_inv k kwargs s s' c :
  construct F k kwargs s = (s', inr c) ->
  exists h t, fw_call F s (Init k kwargs) = (h, None) /\
    logged (trace s ++ [(Init k kwargs, None)]) t /\
    s' = {| heap := h; trace := t; next_node := S (next_node s) |} /\
    c = {| node := next_node s; kind := k; init_args := kwargs;
           component_id := None; beam_pipeline_args := [] |}.
Proof.
  intros H. apply construct_inr in H as (h & Hh & -> & ->).
  exists h, (trace s ++ [(Init k kwargs, None)]). repeat split; assumption.
Qed.

Lemma optional_beam_inv (o : option (list value)) c s s' c' :
  match o with
  | Some args => with_beam_pipeline_args F c args
  | None => ret c
  end s = (s', inr c') ->
  exists h t,
    match o with
    | Some args =>
        fw_call F s (WithBeamPipelineArgs (node c) args) = (h, None)
    | None => h = heap s
    end /\
    logged (trace s ++ beam_calls (node c) o) t /\
    s' = {| heap := h; trace := t; next_node := next_node s |} /\
    c' = {| node := node c; kind := kind c; init_args := init_args c;
            component_id := component_id c;
            beam_pipeline_args :=
              beam_pipeline_args c ++ default [] o |}.
Proof.
  destruct o as [args|]; intros H.
  - apply with_beam_pipeline_args_inr in H as (h & Hh & -> & ->).
    exists h, (trace s ++ beam_calls (node c) (Some args)).
    repeat split; assumption.
  - apply ret_inr in H as [-> ->].
    exists (heap s), (trace s ++ beam_calls (node c) None).
    cbn [beam_calls default]. rewrite !app_nil_r.
    destruct s, c; repeat split.
Qed.

Lemma with_id_inv c new_id s s' c' :
  with_id F c new_id s = (s', inr c') ->
  exists h t, fw_call F s (WithId (node c) new_id) = (h, None) /\
    logged (trace s ++ [(WithId (node c) new_id, None)]) t /\
    s' = {| heap := h; trace := t; next_node := next_node s |} /\
    c' = {| node := node c; kind := kind c; init_args := init_args c;
            component_id := Some new_id;
            beam_pipeline_args := beam_pipeline_args c |}.
Proof.
  intros H. apply with_id_inr in H as (h & Hh & -> & ->).
  exists h, (trace s ++ [(WithId (node c) new_id, None)]).
  repeat split; assumption.
Qed.

Lemma new_pipeline_inv p0 s s' p :
  new_pipeline F p0 s = (s', inr p) ->
  exists h t, fw_call F s (PipelineInit p0) = (h, None) /\
    logged (trace s ++ [(PipelineInit p0, None)]) t /\
    s' = {| heap := h; trace := t; next_node := next_node s |} /\
    p = p0.
Proof.
  intros H. apply new_pipeline_inr in H as (h & Hh & -> & ->).
  exists h, (trace s ++ [(PipelineInit p0, None)]).
  repeat split; assumption.
Qed.

Lemma setitem_Some_inr l key v s s' u :
  setitem (Some l) key v s = (s', inr u) ->
  s' = {| heap := <[l := <[key := v]> (heap s !!! l)]> (heap s);
          trace := trace s; next_node := next_node s |}.
Proof. intros [= <-]. reflexivity. Qed.

Lemma unpack_Some_inr l s s' kwargs :
  unpack (Some l) s = (s', inr kwargs) ->
  kwargs = heap s !!! l /\ s' = s.
Proof. intros [= <- <-]. split; reflexivity. Qed.

End Runs.

(** *** Failed steps *)

Section Failures.
Variable F : Framework.

Lemma foreign_inl c s s' e :
  foreign F c s = (s', inl e) ->
  exists h msg, fw_call F s c = (h, Some msg) /\
    s' = {| heap := h; trace := trace s ++ [(c, Some msg)];
            next_node := next_node s |} /\
    e = Raised c msg.
Proof.
  unfold foreign. destruct (fw_call F s c) as [h [msg|]]; [|discriminate].
  intros [= <- <-]. exists h, msg. repeat split.
Qed.

Lemma construct_inl k kwargs s s' e :
  construct F k kwargs s = (s', inl e) ->
  exists h msg, fw_call F s (Init k kwargs) = (h, Some msg) /\
    s' = {| heap := h; trace := trace s ++ [(Init k kwargs, Some msg)];
            next_node := next_node s |} /\
    e = Raised (Init k kwargs) msg.
Proof.
  unfold construct. intros H. apply bind_inl in H as [H|(u & s1 & _ & H)].
  - apply foreign_inl in H. exact H.
  - discriminate H.
Qed.

Lemma with_beam_pipeline_args_inl c args s s' e :
  with_beam_pipeline_args F c args s = (s', inl e) ->
  exists h msg,
    fw_call F s (WithBeamPipelineArgs (node c) args) = (h, Some msg) /\
    s' = {| heap := h;
            trace := trace s ++
                     [(WithBeamPipelineArgs (node c) args, Some msg)];
            next_node := next_node s |} /\
    e = Raised (WithBeamPipelineArgs (node c) args) msg.
Proof.
  unfold with_beam_pipeline_args. intros H.
  apply bind_inl in H as [H|(u & s1 & _ & H)].
  - apply foreign_inl in H. exact H.
  - discriminate H.
Qed.

Lemma optional_beam_inl (o : option (list value)) c s s' e :
  match o with
  | Some args => with_beam_pipeline_args F c args
  | None => ret c
  end s = (s', inl e) ->
  exists args h msg, o = Some args /\
    fw_call F s (WithBeamPipelineArgs (node c) args) = (h, Some msg) /\
    s' = {| heap := h;
            trace := trace s ++
                     [(WithBeamPipelineArgs (node c) args, Some msg)];
            next_node := next_node s |} /\
    e = Raised (WithBeamPipelineArgs (node c) args) msg.
Proof.
  destruct o as [args|]; [|discriminate]. intros H.
  apply with_beam_pipeline_args_inl in H as (h & msg & H).
  exists args, h, msg. split; [reflexivity|exact H].
Qed.

Lemma with_id_inl c new_id s s' e :
  with_id F c new_id s = (s', inl e) ->
  exists h msg, fw_call F s (WithId (node c) new_id) = (h, Some msg) /\
    s' = {| heap := h;
            trace := trace s ++ [(WithId (node c) new_id, Some msg)];
            next_node := next_node s |} /\
    e = Raised (WithId (node c) new_id) msg.
Proof.
  unfold with_id. intros H. apply bind_inl in H as [H|(u & s1 & _ & H)].
  - apply foreign_inl in H. exact H.
  - discriminate H.
Qed.

Lemma new_pipeline_inl p s s' e :
  new_pipeline F p s = (s', inl e) ->
  exists h msg, fw_call F s (PipelineInit p) = (h, Some msg) /\
    s' = {| heap := h; trace := trace s ++ [(PipelineInit p, Some msg)];
            next_node := next_node s |} /\
    e = Raised (PipelineInit p) msg.
Proof.
  unfold new_pipeline. intros H.
  apply bind_inl in H as [H|(u & s1 & _ & H)].
  - apply foreign_inl in H. exact H.
  - discriminate H.
Qed.

Lemma outputs_inl c key s s' e :
  outputs F c key s = (s', inl e) ->
  fw_output F (kind c) key = false /\ s' = s /\ e = KeyError key.
Proof.
  unfold outputs. destruct (fw_output F (kind c) key); [discriminate|].
  intros [= <- <-]. repeat split.
Qed.

Lemma getitem_inl d key s s' e :
  getitem d key s = (s', inl e) ->
  (heap s !!! d) !! key = None /\ s' = s /\ e = KeyError key.
Proof.
  unfold getitem. destruct ((heap s !!! d) !! key); [discriminate|].
  intros [= <- <-]. repeat split.
Qed.

Lemma setitem_inl d key v s s' e :
  setitem d key v s = (s', inl e) ->
  d = None /\ s' = s /\
  e = TypeError "'NoneType' object does not support item assignment".
Proof.
  unfold setitem. destruct d; [discriminate|].
  intros [= <- <-]. repeat split.
Qed.

Lemma unpack_inl d s s' e :
  unpack d s = (s', inl e) ->
  d = None /\ s' = s /\
  e = TypeError "argument after ** must be a mapping, not NoneType".
Proof.
  unfold unpack. destruct d; [discriminate|].
  intros [= <- <-]. repeat split.
Qed.

End Failures.

(** *** Nothing is caught *)

Section Transparency.
Variable F : Framework.
Variable hf_pusher_args : option nat.

Local Abbreviation P := (own_failure F hf_pusher_args).

Lemma transparent_ret {A} (a : A) : transparent P (ret a).
Proof.
  intros s. exists []. cbn. rewrite app_nil_r. split; [reflexivity|].
  apply Forall_nil_2.
Qed.

Lemma transparent_bind {A B} (m : M A) (k : A -> M B) :
  transparent P m -> (forall a, transparent P (k a)) ->
  transparent P (bind m k).
Proof.
  intros Hm Hk s. destruct (Hm s) as (t1 & Ht1 & Ho1).
  unfold bind. destruct (m s) as [s1 [e|a]]; cbn [fst snd] in *.
  - exists t1. split; assumption.
  - destruct (Hk a s1) as (t2 & Ht2 & Ho2).
    exists (t1 ++ t2). rewrite Ht2, Ht1, app_assoc. split; [reflexivity|].
    cbn [outcome] in Ho1.
    destruct (k a s1).2 as [[key|msg|c msg]|b]; cbn [outcome] in *.
    + destruct Ho2 as [Hq Hp]. split; [|exact Hp].
      apply Forall_app. split; assumption.
    + destruct Ho2 as [Hq Hp]. split; [|exact Hp].
      apply Forall_app. split; assumption.
    + destruct Ho2 as (t0 & -> & Hq). exists (t1 ++ t0).
      rewrite app_assoc. split; [reflexivity|].
      apply Forall_app. split; assumption.
    + apply Forall_app. split; assumption.
Qed.

Lemma transparent_foreign c : transparent P (foreign F c).
Proof.
  intros s. unfold foreign.
  destruct (fw_call F s c) as [h [msg|]]; cbn [fst snd trace outcome].
  - exists [(c, Some msg)]. split; [reflexivity|].
    exists []. split; [reflexivity|apply Forall_nil_2].
  - exists [(c, None)]. split; [reflexivity|].
    apply Forall_cons. split; [reflexivity|apply Forall_nil_2].
Qed.

Lemma transparent_fresh : transparent P fresh.
Proof.
  intros s. exists []. cbn. rewrite app_nil_r. split; [reflexivity|].
  apply Forall_nil_2.
Qed.

Lemma transparent_construct k kwargs : transparent P (construct F k kwargs).
Proof.
  unfold construct.
  apply transparent_bind; [apply transparent_foreign|intros _].
  apply transparent_bind; [apply transparent_fresh|intros n].
  apply transparent_ret.
Qed.

Lemma transparent_with_beam_pipeline_args c args :
  transparent P (with_beam_pipeline_args F c args).
Proof.
  unfold with_beam_pipeline_args.
  apply transparent_bind; [apply transparent_foreign|intros _].
  apply transparent_ret.
Qed.

Lemma transparent_with_id c new_id : transparent P (with_id F c new_id).
Proof.
  unfold with_id.
  apply transparent_bind; [apply transparent_foreign|intros _].
  apply transparent_ret.
Qed.

Lemma transparent_new_pipeline p : transparent P (new_pipeline F p).
Proof.
  unfold new_pipeline.
  apply transparent_bind; [apply transparent_foreign|intros _].
  apply transparent_ret.
Qed.

Lemma transparent_outputs c key : transparent P (outputs F c key).
Proof.
  unfold outputs. destruct (fw_output F (kind c) key) eqn:Ho.
  - apply transparent_ret.
  - intros s. exists []. cbn. rewrite app_nil_r. split; [reflexivity|].
    split; [apply Forall_nil_2|]. right. exists (kind c). exact Ho.
Qed.

Lemma transparent_getitem d key :
  key ∈ module_keys -> transparent P (getitem d key).
Proof.
  intros Hkey s. exists []. unfold getitem.
  destruct ((heap s !!! d) !! key); cbn; rewrite app_nil_r.
  - split; [reflexivity|apply Forall_nil_2].
  - split; [reflexivity|]. split; [apply Forall_nil_2|]. left. exact Hkey.
Qed.

Lemma transparent_setitem key v :
  transparent P (setitem hf_pusher_args key v).
Proof.
  intros s. exists []. unfold setitem.
  destruct hf_pusher_args; cbn; rewrite app_nil_r.
  - split; [reflexivity|apply Forall_nil_2].
  - split; [reflexivity|]. split; [apply Forall_nil_2|reflexivity].
Qed.

Lemma transparent_unpack : transparent P (unpack hf_pusher_args).
Proof.
  intros s. exists []. unfold unpack.
  destruct hf_pusher_args; cbn; rewrite app_nil_r.
  - split; [reflexivity|apply Forall_nil_2].
  - split; [reflexivity|]. split; [apply Forall_nil_2|reflexivity].
Qed.

(** The first call of a sequence stays the first entry it adds. *)
Lemma bind_first_call {A B} (m : M A) (k : A -> M B) c :
  (forall s, exists r, trace (m s).1 = trace s ++ [(c, r)]) ->
  (forall a, transparent P (k a)) ->
  forall s, exists r rest,
    trace (bind m k s).1 = trace s ++ (c, r) :: rest.
Proof.
  intros Hm Hk s. destruct (Hm s) as (r & Hr). unfold bind.
  destruct (m s) as [s1 [e|a]]; cbn [fst] in *.
  - exists r, []. exact Hr.
  - destruct (Hk a s1) as (t & Ht & _). exists r, t.
    rewrite Ht, Hr, <- app_assoc. reflexivity.
Qed.

Lemma construct_first_call k kwargs s :
  exists r, trace (construct F k kwargs s).1 =
            trace s ++ [(Init k kwargs, r)].
Proof.
  unfold construct, bind, foreign, fresh, ret.
  destruct (fw_call F s (Init k kwargs)) as [h [msg|]];
    eexists; reflexivity.
Qed.

End Transparency.

Create HintDb transparency.

#[local] Hint Resolve transparent_ret transparent_construct
  transparent_with_beam_pipeline_args transparent_with_id
  transparent_new_pipeline transparent_outputs transparent_setitem
  transparent_unpack : transparency.

(** Proves [transparent] for a sequence of the operations above. *)
Ltac transparency :=
  repeat first
    [ solve [auto with transparency]
    | apply transparent_getitem; unfold module_keys;
      rewrite !elem_of_cons; auto
    | match goal with
      | |- transparent _ (match ?o with _ => _ end) => destruct o
      end
    | apply transparent_bind; [|intros ?] ].

(** *** Reading a dictionary display *)

Lemma lookup_foldl_insert (items : list (string * value)) (d : dict) key :
  foldl (fun d kv => <[kv.1 := kv.2]> d) d items !! key =
  match last_bound key items with
  | Some w => Some w
  | None => d !! key
  end.
Proof.
  revert d. induction items as [|[k v] rest IH]; intros d; [reflexivity|].
  cbn [foldl last_bound fst snd]. rewrite IH.
  destruct (last_bound key rest) as [w|]; [reflexivity|].
  destruct (String.eqb_spec k key) as [->|Hne].
  - apply lookup_insert_eq.
  - apply lookup_insert_ne. exact Hne.
Qed.

Lemma lookup_dict_display items key :
  dict_display items !! key = last_bound key items.
Proof.
  unfold dict_display. rewrite lookup_foldl_insert.
  destruct (last_bound key items); [reflexivity|apply lookup_empty].
Qed.

(** *** Running a successful call symbolically

    [run H] takes [H : create_pipeline ... s = (s', inr p)] apart, one
    statement of the source at a time.  It leaves the returned pipeline
    and the final state written out, and in the context one fact per
    foreign call ([Hcall*]), per log extension ([Hlog*]) and per
    subscript read. *)

Ltac tidy H :=
  cbv beta zeta in H;
  cbn [heap trace next_node node kind init_args component_id
       beam_pipeline_args app] in H.

Ltac run_step H :=
  let a := fresh "a" in
  let s1 := fresh "s" in
  let Hm := fresh "Hm" in
  let Hf := fresh "Hcall" in
  let Ht := fresh "Hlog" in
  apply bind_inr in H as (a & s1 & Hm & H);
  lazymatch type of Hm with
  | construct _ _ _ _ = _ =>
      apply construct_inv in Hm as (? & ? & Hf & Ht & -> & ->)
  | with_id _ _ _ _ = _ =>
      apply with_id_inv in Hm as (? & ? & Hf & Ht & -> & ->)
  | outputs _ _ _ _ = _ =>
      apply outputs_inr in Hm as (Hf & -> & ->); unfold output_of in H
  | getitem _ _ _ = _ =>
      apply getitem_inr in Hm as (Hf & ->)
  | setitem ?d _ _ _ = _ =>
      lazymatch d with
      | Some _ => idtac
      | _ => destruct d as [?|]; [|discriminate Hm]
      end;
      apply setitem_Some_inr in Hm as ->
  | unpack _ _ = _ =>
      apply unpack_Some_inr in Hm as (-> & ->)
  | match _ with _ => _ end _ = _ =>
      apply optional_beam_inv in Hm as (? & ? & Hf & Ht & -> & ->)
  end;
  tidy H; try tidy Hf; try tidy Ht.

Ltac run H :=
  unfold create_pipeline in H; cbv beta zeta in H;
  repeat run_step H;
  let Hf := fresh "Hcall" in
  let Ht := fresh "Hlog" in
  apply new_pipeline_inv in H as (? & ? & Hf & Ht & -> & ->);
  tidy Hf; tidy Ht.

(** Closes a goal [input_of c param = Some v] once [c] is written out. *)
Ltac read_input :=
  unfold input_of, output_of; cbn [init_args node];
  first
    [ rewrite lookup_dict_display; reflexivity
    | rewrite ?lookup_total_insert_eq;
      repeat (rewrite lookup_insert_ne by done);
      apply lookup_insert_eq ].

(** *** Reading the log *)

Lemma elem_of_beam_receivers (t : list event) self args :
  WithBeamPipelineArgs self args ∈ t.*1 <-> (self, args) ∈ beam_receivers t.
Proof.
  unfold beam_receivers. rewrite list_elem_of_omap, list_elem_of_fmap.
  split.
  - intros ([c r] & Hc & Hin). cbn [fst] in Hc. subst c.
    exists (WithBeamPipelineArgs self args, r). split; [exact Hin|reflexivity].
  - intros ([c r] & Hin & Hc). cbn [fst] in Hc.
    destruct c; try discriminate Hc. injection Hc as -> ->.
    exists (WithBeamPipelineArgs self args, r). split; [reflexivity|exact Hin].
Qed.

(** Drops the facts about foreign calls from the context. *)
Ltac forget_calls :=
  repeat match goal with
    | H : fw_call _ _ _ = _ |- _ => clear H
    | H : fw_output _ _ _ = _ |- _ => clear H
    | H : match _ with Some _ => _ | None => _ end |- _ => clear H
    end.

(** *** Running a failed call symbolically *)

(** [fail_step Hm] reads off a failed statement [Hm : m s = (s', inl e)]
    the final state and the exception. *)
Ltac fail_step Hm :=
  let Hf := fresh "Hfail" in
  let Hd := fresh "Hnone" in
  lazymatch type of Hm with
  | construct _ _ _ _ = _ =>
      apply construct_inl in Hm as (? & ? & Hf & -> & ->)
  | with_id _ _ _ _ = _ =>
      apply with_id_inl in Hm as (? & ? & Hf & -> & ->)
  | new_pipeline _ _ _ = _ =>
      apply new_pipeline_inl in Hm as (? & ? & Hf & -> & ->)
  | outputs _ _ _ _ = _ =>
      apply outputs_inl in Hm as (Hf & -> & ->); tidy Hf
  | getitem _ _ _ = _ =>
      apply getitem_inl in Hm as (Hf & -> & ->); tidy Hf
  | setitem _ _ _ _ = _ =>
      apply setitem_inl in Hm as (Hd & -> & ->);
      first [discriminate Hd | subst]
  | unpack _ _ = _ =>
      apply unpack_inl in Hm as (Hd & -> & ->);
      first [discriminate Hd | subst]
  | match _ with _ => _ end _ = _ =>
      apply optional_beam_inl in Hm as (? & ? & ? & -> & Hf & -> & ->)
  end.

(** [ok_step Hm H] reads off a statement that went through,
    [Hm : m s = (s1, inr a)], its facts, and tidies the rest [H] of the
    run. *)
Ltac ok_step Hm H :=
  let Hf := fresh "Hcall" in
  let Ht := fresh "Hlog" in
  lazymatch type of Hm with
  | construct _ _ _ _ = _ =>
      apply construct_inv in Hm as (? & ? & Hf & Ht & -> & ->)
  | with_id _ _ _ _ = _ =>
      apply with_id_inv in Hm as (? & ? & Hf & Ht & -> & ->)
  | outputs _ _ _ _ = _ =>
      apply outputs_inr in Hm as (Hf & -> & ->); unfold output_of in H
  | getitem _ _ _ = _ =>
      apply getitem_inr in Hm as (Hf & ->)
  | setitem ?d _ _ _ = _ =>
      lazymatch d with
      | Some _ => idtac
      | _ => destruct d as [?|]; [|discriminate Hm]
      end;
      apply setitem_Some_inr in Hm as ->
  | unpack _ _ = _ =>
      apply unpack_Some_inr in Hm as (-> & ->)
  | match _ with _ => _ end _ = _ =>
      apply optional_beam_inv in Hm as (? & ? & Hf & Ht & -> & ->)
  end;
  tidy H; try tidy Hf; try tidy Ht.

(** [run_failed H finish] takes [H : create_pipeline ... s = (s', inl e)]
    apart: one goal per statement of the source that can fail, each with
    the facts of the statements before it, and [finish] run on it. *)
Ltac run_failed_loop H finish :=
  let a := fresh "a" in
  let s1 := fresh "s" in
  let Hm := fresh "Hm" in
  let Hf := fresh "Hfail" in
  first
    [ apply bind_inl in H as [Hm|(a & s1 & Hm & H)];
      [ fail_step Hm; finish
      | ok_step Hm H; run_failed_loop H finish ]
    | apply new_pipeline_inl in H as (? & ? & Hf & -> & ->); finish ].

Ltac run_failed H finish :=
  unfold create_pipeline in H; cbv beta zeta in H;
  run_failed_loop H finish.

(** *** More on reading the log *)

Lemma constructed_app t1 t2 :
  constructed (t1 ++ t2) = constructed t1 ++ constructed t2.
Proof. apply omap_app. Qed.

Lemma constructed_cons c o t :
  constructed ((c, o) :: t) =
  match c with Init k _ => [k] | _ => [] end ++ constructed t.
Proof. destruct c; reflexivity. Qed.

Lemma constructed_nil : constructed [] = [].
Proof. reflexivity. Qed.

Lemma constructed_beam_calls self o : constructed (beam_calls self o) = [].
Proof. destruct o; reflexivity. Qed.

(** Computes [constructed] on a log that is written out. *)
Ltac read_constructed :=
  repeat first
    [ rewrite constructed_cons
    | rewrite constructed_app
    | rewrite constructed_beam_calls
    | rewrite constructed_nil ];
  cbn [app].

Lemma id_receivers_app t1 t2 :
  id_receivers (t1 ++ t2) = id_receivers t1 ++ id_receivers t2.
Proof. apply omap_app. Qed.

Lemma id_receivers_beam_calls self o : id_receivers (beam_calls self o) = [].
Proof. destruct o; reflexivity. Qed.

(** Replaces every heap a foreign call returned by the heap it was given,
    using [Hkeep : forall s c, (fw_call F s c).1 = heap s]. *)
Ltac frame_with Hkeep :=
  repeat match goal with
    | Hc : fw_call _ ?st ?c = (?h, _) |- _ =>
        let E := fresh in
        pose proof (Hkeep st c) as E;
        rewrite Hc in E; cbn [fst heap] in E; subst h; clear Hc
    | Hc : match ?o with Some _ => _ | None => _ end |- _ =>
        destruct o
    | Hc : ?h = ?h' |- _ => is_var h; subst h
    end.

(** ** The returned pipeline *)

Section Wiring.
Variable F : Framework.
Variables pipeline_name pipeline_root data_path : string.
Variable modules : nat.
Variables train_args eval_args eval_configs : value.
Variable metadata_connection_config : option value.
Variables ai_platform_training_args ai_platform_serving_args : option nat.
Variables example_gen_beam_args transform_beam_args : option (list value).
Variable hf_pusher_args : option nat.

Local Abbreviation call_it :=
  (create_pipeline F pipeline_name pipeline_root data_path modules
     train_args eval_args eval_configs metadata_connection_config
     ai_platform_training_args ai_platform_serving_args
     example_gen_beam_args transform_beam_args hf_pusher_args).

(** C1, as the code has it.  Whenever [create_pipeline] returns, the
    list it handed to the [Pipeline] constructor as [components=], in
    its last foreign call, holds nine components, of these classes and
    in this order: ImportExampleGen, StatisticsGen, SchemaGen, Transform,
    VertexTrainer, Resolver, Evaluator, VertexPusher, HFPusher.  The
    sixth is the latest-blessed-model resolver: its strategy class is
    [LatestBlessedModelResolver] and its id is
    "latest_blessed_model_resolver".  The nine are distinct objects.
    In which order the pipeline object then lists them is the
    framework's doing ([built_components]), not the function's. *)
Theorem create_pipeline_components s s' p :
  (create_pipeline F pipeline_name pipeline_root data_path modules
     train_args eval_args eval_configs metadata_connection_config
     ai_platform_training_args ai_platform_serving_args
     example_gen_beam_args transform_beam_args hf_pusher_args) s
  = (s', inr p) ->
  kind <$> components p =
    [ImportExampleGen; StatisticsGen; SchemaGen; Transform; VertexTrainer;
     Resolver; Evaluator; VertexPusher; HFPusher] /\
  (exists r, components p !! 5 = Some r /\
     input_of r "strategy_class" =
       Some (VClass "LatestBlessedModelResolver") /\
     component_id r = Some "latest_blessed_model_resolver") /\
  NoDup (node <$> components p) /\
  exists t,
    trace s' = trace s ++ t /\ last t = Some (PipelineInit p, None).
Proof.
  intros H. run H. cbn [components]. split; [reflexivity|].
  split; [|split].
  - eexists. split; [reflexivity|]. split; [read_input|reflexivity].
  - cbn [fmap list_fmap node]. generalize (next_node s). intros first_node.
    repeat (apply NoDup_cons; split;
            [rewrite ?elem_of_cons, elem_of_nil; lia|]).
    apply NoDup_nil_2.
  - forget_calls. unfold logged in *. subst. cbn [trace].
    rewrite <- ?app_assoc. eexists. split; [reflexivity|].
    rewrite !app_assoc. apply last_snoc.
Qed.

(** C3. Whenever [create_pipeline] returns, the trainer's
    [custom_config] is [ai_platform_training_args] and the pusher's is
    [ai_platform_serving_args]: the caller's dictionary when one was
    supplied, and [None], that is no configuration, when it was not. *)
Theorem cloud_configs_applied_when_supplied s s' p :
  (create_pipeline F pipeline_name pipeline_root data_path modules
     train_args eval_args eval_configs metadata_connection_config
     ai_platform_training_args ai_platform_serving_args
     example_gen_beam_args transform_beam_args hf_pusher_args) s
  = (s', inr p) ->
  exists trainer pusher,
    components p !! 4 = Some trainer /\ kind trainer = VertexTrainer /\
    components p !! 7 = Some pusher /\ kind pusher = VertexPusher /\
    input_of trainer "custom_config" =
      Some (match ai_platform_training_args with
            | Some d => VDict d
            | None => VNone
            end) /\
    input_of pusher "custom_config" =
      Some (match ai_platform_serving_args with
            | Some d => VDict d
            | None => VNone
            end).
Proof.
  intros H. run H. cbn [components]. do 2 eexists.
  do 4 (split; [reflexivity|]). split; read_input.
Qed.

(** C5. Whenever [create_pipeline] returns, both deployment components
    were given the trainer's "model" output as [model] and the
    evaluator's "blessing" output as [model_blessing]. *)
Theorem pushers_receive_model_and_blessing s s' p :
  (create_pipeline F pipeline_name pipeline_root data_path modules
     train_args eval_args eval_configs metadata_connection_config
     ai_platform_training_args ai_platform_serving_args
     example_gen_beam_args transform_beam_args hf_pusher_args) s
  = (s', inr p) ->
  exists trainer evaluator pusher hf_pusher,
    components p !! 4 = Some trainer /\ kind trainer = VertexTrainer /\
    components p !! 6 = Some evaluator /\ kind evaluator = Evaluator /\
    components p !! 7 = Some pusher /\ kind pusher = VertexPusher /\
    components p !! 8 = Some hf_pusher /\ kind hf_pusher = HFPusher /\
    feeds trainer "model" pusher "model" /\
    feeds evaluator "blessing" pusher "model_blessing" /\
    feeds trainer "model" hf_pusher "model" /\
    feeds evaluator "blessing" hf_pusher "model_blessing".
Proof.
  intros H. run H. cbn [components]. do 4 eexists.
  do 8 (split; [reflexivity|]). unfold feeds. repeat split; read_input.
Qed.

(** C7. Whenever [create_pipeline] returns, the pipeline's
    [enable_cache] is [True], whatever the arguments. *)
Theorem cache_always_enabled s s' p :
  (create_pipeline F pipeline_name pipeline_root data_path modules
     train_args eval_args eval_configs metadata_connection_config
     ai_platform_training_args ai_platform_serving_args
     example_gen_beam_args transform_beam_args hf_pusher_args) s
  = (s', inr p) -> enable_cache p = true.
Proof. intros H. run H. reflexivity. Qed.

(** C8. Whenever [create_pipeline] returns, the evaluator's [examples]
    is the "examples" output of ImportExampleGen (and no output of
    Transform), its [model] is the
    trainer's "model" output, its [baseline_model] is the resolver's
    "model" output, and its [eval_config] is [eval_configs]. *)
Theorem evaluator_inputs s s' p :
  (create_pipeline F pipeline_name pipeline_root data_path modules
     train_args eval_args eval_configs metadata_connection_config
     ai_platform_training_args ai_platform_serving_args
     example_gen_beam_args transform_beam_args hf_pusher_args) s
  = (s', inr p) ->
  exists example_gen transform trainer model_resolver evaluator,
    components p !! 0 = Some example_gen /\
    kind example_gen = ImportExampleGen /\
    components p !! 3 = Some transform /\ kind transform = Transform /\
    components p !! 4 = Some trainer /\ kind trainer = VertexTrainer /\
    components p !! 5 = Some model_resolver /\
    kind model_resolver = Resolver /\
    components p !! 6 = Some evaluator /\ kind evaluator = Evaluator /\
    feeds example_gen "examples" evaluator "examples" /\
    (forall key, ~ feeds transform key evaluator "examples") /\
    feeds trainer "model" evaluator "model" /\
    feeds model_resolver "model" evaluator "baseline_model" /\
    input_of evaluator "eval_config" = Some eval_configs.
Proof.
  intros H. run H. cbn [components]. do 5 eexists.
  do 10 (split; [reflexivity|]). unfold feeds.
  repeat split; try read_input.
  unfold input_of, output_of; cbn [init_args node].
  rewrite lookup_dict_display. cbn. intros key [=]. lia.
Qed.

Lemma create_pipeline_transparent :
  transparent (own_failure F hf_pusher_args) call_it.
Proof. unfold create_pipeline. cbv zeta. transparency. Qed.

(** Nothing is caught, and every failure is classified. *)
Lemma failures_classified s s' r :
  (create_pipeline F pipeline_name pipeline_root data_path modules
     train_args eval_args eval_configs metadata_connection_config
     ai_platform_training_args ai_platform_serving_args
     example_gen_beam_args transform_beam_args hf_pusher_args) s
  = (s', r) ->
  exists t, trace s' = trace s ++ t /\
    (forall c msg, (c, Some msg) ∈ t ->
       r = inl (Raised c msg) /\ last t = Some (c, Some msg)) /\
    (forall e, r = inl e ->
       match e with
       | Raised c msg => last t = Some (c, Some msg)
       | KeyError key =>
           Forall returned t /\
           (key ∈ module_keys \/ exists k, fw_output F k key = false)
       | TypeError _ => Forall returned t /\ hf_pusher_args = None
       end).
Proof.
  intros H. destruct (create_pipeline_transparent s) as (t & Ht & Ho).
  rewrite H in Ht, Ho. cbn [fst snd] in Ht, Ho. exists t.
  split; [exact Ht|].
  assert (Hquiet : forall (c : call) msg (u : list event),
             Forall returned u -> (c, Some msg) ∉ u).
  { intros c msg u Hall Hin. rewrite Forall_forall in Hall.
    specialize (Hall _ Hin). discriminate Hall. }
  destruct r as [[key|msg0|c0 msg0]|p]; cbn [outcome own_failure] in Ho.
  - destruct Ho as [Hall Hp]. split.
    + intros c msg Hin. destruct (Hquiet c msg _ Hall Hin).
    + intros e [= <-]. split; assumption.
  - destruct Ho as [Hall Hp]. split.
    + intros c msg Hin. destruct (Hquiet c msg _ Hall Hin).
    + intros e [= <-]. split; assumption.
  - destruct Ho as (t0 & -> & Hall). split.
    + intros c msg Hin. apply elem_of_app in Hin as [Hin|Hin].
      * destruct (Hquiet c msg _ Hall Hin).
      * apply list_elem_of_singleton in Hin. injection Hin as -> ->.
        split; [reflexivity|apply last_snoc].
    + intros e [= <-]. apply last_snoc.
  - split.
    + intros c msg Hin. destruct (Hquiet c msg _ Ho Hin).
    + intros e [=].
Qed.

(** A failed subscript comes before the constructor that would have
    received its value. *)
Lemma own_failures_come_first s s' r :
  (create_pipeline F pipeline_name pipeline_root data_path modules
     train_args eval_args eval_configs metadata_connection_config
     ai_platform_training_args ai_platform_serving_args
     example_gen_beam_args transform_beam_args hf_pusher_args) s
  = (s', r) ->
  exists t, trace s' = trace s ++ t /\
    (r = inl (KeyError "preprocessing_fn") -> Transform ∉ constructed t) /\
    (r = inl (KeyError "training_fn") -> VertexTrainer ∉ constructed t) /\
    (forall msg, r = inl (TypeError msg) -> HFPusher ∉ constructed t).
Proof.
  intros H. destruct r as [e|p].
  - run_failed H ltac:(idtac).
    all: forget_calls; unfold logged in *; subst; cbn [trace].
    all: rewrite <- ?app_assoc; eexists; (split; [reflexivity|]).
    all: read_constructed.
    all: (split; [|split]); [intros E|intros E|intros msg E].
    all: try discriminate E.
    all: rewrite ?elem_of_cons, elem_of_nil; intuition discriminate.
  - destruct (create_pipeline_transparent s) as (t & Ht & _).
    rewrite H in Ht. exists t. split; [exact Ht|].
    repeat split; intros; discriminate.
Qed.

(** C4, as the code has it.  [create_pipeline] catches nothing.  An
    exception raised by a foreign call (a component constructor, a
    component method, the [Pipeline] constructor) ends the run at that
    call and is the function's outcome, unchanged.  Every failure is
    either such an exception or is raised by one of the function's own
    subscripts: a [KeyError] for a key missing from [modules] or from a
    component's [outputs], a [TypeError] for the item assignment on
    [hf_pusher_args = None].  Such a failure comes before the
    constructor that would have received the value is called: Transform
    for "preprocessing_fn", the trainer for "training_fn", HFPusher for
    [hf_pusher_args]. *)
Theorem failures_reach_the_caller s s' r :
  (create_pipeline F pipeline_name pipeline_root data_path modules
     train_args eval_args eval_configs metadata_connection_config
     ai_platform_training_args ai_platform_serving_args
     example_gen_beam_args transform_beam_args hf_pusher_args) s
  = (s', r) ->
  exists t, trace s' = trace s ++ t /\
    (forall c msg, (c, Some msg) ∈ t ->
       r = inl (Raised c msg) /\ last t = Some (c, Some msg)) /\
    (forall e, r = inl e ->
       match e with
       | Raised c msg => last t = Some (c, Some msg)
       | KeyError key =>
           Forall returned t /\
           (key ∈ module_keys \/ exists k, fw_output F k key = false)
       | TypeError _ => Forall returned t /\ hf_pusher_args = None
       end) /\
    (r = inl (KeyError "preprocessing_fn") -> Transform ∉ constructed t) /\
    (r = inl (KeyError "training_fn") -> VertexTrainer ∉ constructed t) /\
    (forall msg, r = inl (TypeError msg) -> HFPusher ∉ constructed t).
Proof.
  intros H.
  destruct (failures_classified s s' r H) as (t & Ht & Hraised & Hclass).
  destruct (own_failures_come_first s s' r H) as (t' & Ht' & Hfirst).
  assert (t' = t) as ->
    by (apply (app_inv_head (trace s)); rewrite <- Ht, <- Ht'; reflexivity).
  destruct Hfirst as (Hpre & Htrain & Hhf).
  exists t. split; [exact Ht|]. split; [exact Hraised|].
  split; [exact Hclass|]. split; [exact Hpre|]. split; [exact Htrain|].
  exact Hhf.
Qed.

(** C10. For every input, the first foreign call is the constructor of
    ImportExampleGen, and its [input_config] is the two splits
    "train" with pattern "train-*.tfrec" and "eval" with pattern
    "val-*.tfrec"; and when the function returns, that is the
    [input_config] of the pipeline's first component.  No argument of
    [create_pipeline] occurs in it. *)
Theorem ingestion_splits_are_fixed s :
  let input_config :=
    VInput [ {| split_name := "train"; split_pattern := "train-*.tfrec" |};
             {| split_name := "eval"; split_pattern := "val-*.tfrec" |} ] in
  (exists kwargs r rest,
     trace ((create_pipeline F pipeline_name pipeline_root data_path modules
     train_args eval_args eval_configs metadata_connection_config
     ai_platform_training_args ai_platform_serving_args
     example_gen_beam_args transform_beam_args hf_pusher_args) s).1 =
       trace s ++ (Init ImportExampleGen kwargs, r) :: rest /\
     kwargs !! "input_config" = Some input_config) /\
  match ((create_pipeline F pipeline_name pipeline_root data_path modules
     train_args eval_args eval_configs metadata_connection_config
     ai_platform_training_args ai_platform_serving_args
     example_gen_beam_args transform_beam_args hf_pusher_args) s).2 with
  | inr p =>
      exists example_gen,
        components p !! 0 = Some example_gen /\
        kind example_gen = ImportExampleGen /\
        input_of example_gen "input_config" = Some input_config
  | inl _ => True
  end.
Proof.
  intros input_config. split.
  - unfold create_pipeline. cbv zeta.
    lazymatch goal with
    | |- exists _ _ _,
           trace (bind (construct F ?k ?kw) ?rest_of_body s).1 = _ /\ _ =>
        assert (Hrest : forall a,
                  transparent (own_failure F hf_pusher_args)
                    (rest_of_body a))
          by (intros a; cbv beta; transparency);
        destruct (bind_first_call F hf_pusher_args _ _ (Init k kw)
                    (construct_first_call F k kw) Hrest s)
          as (r & rest & Hr);
        exists kw, r, rest
    end.
    split; [exact Hr|]. rewrite lookup_dict_display. reflexivity.
  - destruct (call_it s) as [s' [e|p]] eqn:H; cbn [snd]; [exact I|].
    run H. cbn [components]. eexists. split; [reflexivity|].
    split; [reflexivity|]. read_input.
Qed.

(** C2. Whenever [create_pipeline] returns, the calls of
    [with_beam_pipeline_args] it made are exactly these: one on the
    ImportExampleGen component with [example_gen_beam_args] if that
    argument is not [None], and one on the Transform component with
    [transform_beam_args] if that argument is not [None].  No other
    component carries beam arguments. *)
Theorem beam_args_applied_when_supplied s s' p :
  (create_pipeline F pipeline_name pipeline_root data_path modules
     train_args eval_args eval_configs metadata_connection_config
     ai_platform_training_args ai_platform_serving_args
     example_gen_beam_args transform_beam_args hf_pusher_args) s
  = (s', inr p) ->
  exists example_gen transform t,
    components p !! 0 = Some example_gen /\
    kind example_gen = ImportExampleGen /\
    components p !! 3 = Some transform /\ kind transform = Transform /\
    trace s' = trace s ++ t /\
    (forall self args,
       WithBeamPipelineArgs self args ∈ t.*1 <->
       (self = node example_gen /\ example_gen_beam_args = Some args) \/
       (self = node transform /\ transform_beam_args = Some args)) /\
    beam_pipeline_args example_gen = default [] example_gen_beam_args /\
    beam_pipeline_args transform = default [] transform_beam_args /\
    (forall c, c ∈ components p ->
       c <> example_gen -> c <> transform -> beam_pipeline_args c = []).
Proof.
  intros H. run H. forget_calls. unfold logged in *. subst.
  cbn [components trace]. rewrite <- !app_assoc. do 3 eexists.
  do 4 (split; [reflexivity|]). split; [reflexivity|].
  cbn [node beam_pipeline_args]. split; [|split; [reflexivity|]].
  - intros self args. rewrite elem_of_beam_receivers.
    unfold beam_receivers. rewrite !omap_app.
    cbn [omap list_omap fst app]. rewrite app_nil_r.
    destruct example_gen_beam_args, transform_beam_args;
      cbn [beam_calls omap list_omap fst app];
      rewrite ?elem_of_cons, elem_of_nil; intuition congruence.
  - split; [reflexivity|]. intros c Hc Heg Htf.
    rewrite ?elem_of_cons, elem_of_nil in Hc.
    destruct Hc as [->|[->|[->|[->|[->|[->|[->|[->|[->|[]]]]]]]]]];
      try reflexivity; [destruct (Heg eq_refl)|destruct (Htf eq_refl)].
Qed.

(** C6, as the code has it.  Whenever [create_pipeline] returns, every
    arrow of the chain except train-to-resolve carries an output
    channel of the upstream component into the downstream one:
    examples into StatisticsGen, statistics into SchemaGen, schema into
    Transform, transformed examples and transform graph into the
    trainer, the resolver's model into the evaluator as baseline, the
    evaluator's blessing into both pushers.  The resolver's [model] and
    [model_blessing] are channels made on the spot, of types [Model]
    and [ModelBlessing]; no component produces what the resolver
    consumes. *)
Theorem channels_along_the_chain s s' p :
  (create_pipeline F pipeline_name pipeline_root data_path modules
     train_args eval_args eval_configs metadata_connection_config
     ai_platform_training_args ai_platform_serving_args
     example_gen_beam_args transform_beam_args hf_pusher_args) s
  = (s', inr p) ->
  exists example_gen statistics_gen schema_gen transform trainer
         model_resolver evaluator pusher hf_pusher,
    components p =
      [example_gen; statistics_gen; schema_gen; transform; trainer;
       model_resolver; evaluator; pusher; hf_pusher] /\
    feeds example_gen "examples" statistics_gen "examples" /\
    feeds statistics_gen "statistics" schema_gen "statistics" /\
    feeds schema_gen "schema" transform "schema" /\
    feeds transform "transformed_examples" trainer "transformed_examples" /\
    feeds transform "transform_graph" trainer "transform_graph" /\
    feeds model_resolver "model" evaluator "baseline_model" /\
    feeds evaluator "blessing" pusher "model_blessing" /\
    feeds evaluator "blessing" hf_pusher "model_blessing" /\
    input_of model_resolver "model" = Some (VChannel (TypedChannel Model)) /\
    input_of model_resolver "model_blessing" =
      Some (VChannel (TypedChannel ModelBlessing)) /\
    (forall c key param, ~ feeds c key model_resolver param) /\
    kind <$> components p =
      [ImportExampleGen; StatisticsGen; SchemaGen; Transform;
       VertexTrainer; Resolver; Evaluator; VertexPusher; HFPusher].
Proof.
  intros H. run H. cbn [components]. do 9 eexists.
  split; [reflexivity|]. unfold feeds.
  do 10 (split; [read_input|]).
  split; [|reflexivity].
  intros c key param. unfold input_of, output_of. cbn [init_args].
  rewrite lookup_dict_display. cbn [last_bound].
  repeat match goal with
    | |- context [String.eqb ?a ?b] => destruct (String.eqb a b)
    end; intros [=].
Qed.

(** *** The caller's dictionaries *)

Section Frame.
(** The framework's calls leave the caller's dictionaries as they
    are. *)
Hypothesis fw_keeps_heap : forall s c, (fw_call F s c).1 = heap s.

(** C9. Whenever [create_pipeline] returns, [hf_pusher_args] is a
    dictionary, and that same dictionary now binds "model" to the
    trainer's "model" output and "model_blessing" to the evaluator's
    "blessing" output, whatever it bound them to before.  Its other
    keys are as they were, and so is every other dictionary. *)
Theorem hf_pusher_args_mutated_in_place s s' p :
  (create_pipeline F pipeline_name pipeline_root data_path modules
   train_args eval_args eval_configs metadata_connection_config
   ai_platform_training_args ai_platform_serving_args
   example_gen_beam_args transform_beam_args hf_pusher_args) s
  = (s', inr p) ->
  exists d trainer evaluator,
    hf_pusher_args = Some d /\
    components p !! 4 = Some trainer /\ kind trainer = VertexTrainer /\
    components p !! 6 = Some evaluator /\ kind evaluator = Evaluator /\
    (heap s' !!! d) !! "model" = Some (output_of trainer "model") /\
    (heap s' !!! d) !! "model_blessing" =
      Some (output_of evaluator "blessing") /\
    (forall key, key <> "model" -> key <> "model_blessing" ->
       (heap s' !!! d) !! key = (heap s !!! d) !! key) /\
    (forall d', d' <> d -> heap s' !! d' = heap s !! d').
Proof.
  intros H. run H.
  repeat match goal with
    | Hc : fw_call F ?st ?c = (?h, None) |- _ =>
        let E := fresh in
        pose proof (fw_keeps_heap st c) as E;
        rewrite Hc in E; cbn [fst heap] in E; subst h; clear Hc
    | Hc : match ?o with Some _ => _ | None => _ end |- _ =>
        destruct o
    | Hc : ?h = ?h' |- _ => is_var h; subst h
    end.
  all: cbn [components heap]; do 3 eexists.
  all: split; [reflexivity|]; do 4 (split; [reflexivity|]).
  all: unfold output_of; cbn [node].
  all: rewrite !lookup_total_insert_eq.
  all: repeat split.
  all: try (intros key Hm Hb; rewrite !lookup_insert_ne by done;
            reflexivity).
  all: try (intros d' Hd; rewrite !lookup_insert_ne by done;
            reflexivity).
  all: try (rewrite lookup_insert_ne by done).
  all: apply lookup_insert_eq.
Qed.
End Frame.

End Wiring.

(** ** The sample call

    The theorems above, applied to [sample_run]; and the runs that
    show where the specification's wording departs from the code. *)

Lemma create_pipeline_components_witness :
  sample_run quiet_framework (Some 1) sample_state =
    (sample_final_state, inr sample_pipeline) /\
  kind <$> components sample_pipeline =
    [ImportExampleGen; StatisticsGen; SchemaGen; Transform; VertexTrainer;
     Resolver; Evaluator; VertexPusher; HFPusher].
Proof.
  assert (H : sample_run quiet_framework (Some 1) sample_state =
              (sample_final_state, inr sample_pipeline))
    by (vm_compute; reflexivity).
  split; [exact H|]. unfold sample_run in H.
  exact (proj1 (create_pipeline_components
                  _ _ _ _ _ _ _ _ _ _ _ _ _ _ _ _ _ H)).
Defined.

Lemma beam_args_applied_when_supplied_witness :
  sample_run quiet_framework (Some 1) sample_state =
    (sample_final_state, inr sample_pipeline) /\
  exists t,
    trace sample_final_state = trace sample_state ++ t /\
    WithBeamPipelineArgs 0 [VStr "--runner=DataflowRunner"] ∈ t.*1 /\
    forall args, WithBeamPipelineArgs 3 args ∉ t.*1.
Proof.
  assert (H : sample_run quiet_framework (Some 1) sample_state =
              (sample_final_state, inr sample_pipeline))
    by (vm_compute; reflexivity).
  split; [exact H|]. unfold sample_run in H.
  destruct (beam_args_applied_when_supplied
              _ _ _ _ _ _ _ _ _ _ _ _ _ _ _ _ _ H)
    as (eg & tf & t & Heg & _ & Htf & _ & Ht & Hiff & _).
  vm_compute in Heg. injection Heg as <-.
  vm_compute in Htf. injection Htf as <-.
  exists t. split; [exact Ht|]. split.
  - apply Hiff. left. split; reflexivity.
  - intros args Hin. apply Hiff in Hin as [[Hn _]|[_ Hnone]];
      discriminate.
Defined.

Lemma cloud_configs_applied_when_supplied_witness :
  sample_run quiet_framework (Some 1) sample_state =
    (sample_final_state, inr sample_pipeline) /\
  exists trainer pusher,
    components sample_pipeline !! 4 = Some trainer /\
    components sample_pipeline !! 7 = Some pusher /\
    input_of trainer "custom_config" = Some VNone /\
    input_of pusher "custom_config" = Some (VDict 2).
Proof.
  assert (H : sample_run quiet_framework (Some 1) sample_state =
              (sample_final_state, inr sample_pipeline))
    by (vm_compute; reflexivity).
  split; [exact H|]. unfold sample_run in H.
  destruct (cloud_configs_applied_when_supplied
              _ _ _ _ _ _ _ _ _ _ _ _ _ _ _ _ _ H)
    as (tr & pu & H4 & _ & H7 & _ & Hc1 & Hc2).
  exists tr, pu. repeat split; assumption.
Defined.

Lemma pushers_receive_model_and_blessing_witness :
  sample_run quiet_framework (Some 1) sample_state =
    (sample_final_state, inr sample_pipeline) /\
  exists trainer evaluator pusher hf_pusher,
    components sample_pipeline !! 4 = Some trainer /\
    components sample_pipeline !! 6 = Some evaluator /\
    components sample_pipeline !! 7 = Some pusher /\
    components sample_pipeline !! 8 = Some hf_pusher /\
    feeds trainer "model" pusher "model" /\
    feeds evaluator "blessing" pusher "model_blessing" /\
    feeds trainer "model" hf_pusher "model" /\
    feeds evaluator "blessing" hf_pusher "model_blessing".
Proof.
  assert (H : sample_run quiet_framework (Some 1) sample_state =
              (sample_final_state, inr sample_pipeline))
    by (vm_compute; reflexivity).
  split; [exact H|]. unfold sample_run in H.
  destruct (pushers_receive_model_and_blessing
              _ _ _ _ _ _ _ _ _ _ _ _ _ _ _ _ _ H)
    as (tr & ev & pu & hp & H4 & _ & H6 & _ & H7 & _ & H8 & _ & Hrest).
  exists tr, ev, pu, hp. repeat split; first [assumption | apply Hrest].
Defined.

Lemma cache_always_enabled_witness :
  sample_run quiet_framework (Some 1) sample_state =
    (sample_final_state, inr sample_pipeline) /\
  enable_cache sample_pipeline = true.
Proof.
  assert (H : sample_run quiet_framework (Some 1) sample_state =
              (sample_final_state, inr sample_pipeline))
    by (vm_compute; reflexivity).
  split; [exact H|]. unfold sample_run in H.
  exact (cache_always_enabled _ _ _ _ _ _ _ _ _ _ _ _ _ _ _ _ _ H).
Defined.

Lemma evaluator_inputs_witness :
  sample_run quiet_framework (Some 1) sample_state =
    (sample_final_state, inr sample_pipeline) /\
  exists example_gen trainer model_resolver evaluator,
    components sample_pipeline !! 0 = Some example_gen /\
    components sample_pipeline !! 4 = Some trainer /\
    components sample_pipeline !! 5 = Some model_resolver /\
    components sample_pipeline !! 6 = Some evaluator /\
    feeds example_gen "examples" evaluator "examples" /\
    feeds trainer "model" evaluator "model" /\
    feeds model_resolver "model" evaluator "baseline_model" /\
    input_of evaluator "eval_config" = Some (VOpaque "EvalConfig").
Proof.
  assert (H : sample_run quiet_framework (Some 1) sample_state =
              (sample_final_state, inr sample_pipeline))
    by (vm_compute; reflexivity).
  split; [exact H|]. unfold sample_run in H.
  destruct (evaluator_inputs _ _ _ _ _ _ _ _ _ _ _ _ _ _ _ _ _ H)
    as (eg & tf & tr & rs & ev & H0 & _ & _ & _ & H4 & _ & H5 & _ & H6 & _
        & Hex & _ & Hmodel & Hbase & Hcfg).
  exists eg, tr, rs, ev. repeat split; assumption.
Defined.

Lemma failures_reach_the_caller_witness :
  exists c t,
    (sample_run failing_trainer_framework (Some 1) sample_state).2 =
      inl (Raised c "trainer rejected") /\
    trace (sample_run failing_trainer_framework (Some 1) sample_state).1 =
      trace sample_state ++ t /\
    last t = Some (c, Some "trainer rejected").
Proof.
  assert (H : sample_run failing_trainer_framework (Some 1) sample_state =
              ((sample_run failing_trainer_framework (Some 1)
                  sample_state).1,
               (sample_run failing_trainer_framework (Some 1)
                  sample_state).2))
    by (vm_compute; reflexivity).
  unfold sample_run in H.
  destruct (failures_reach_the_caller _ _ _ _ _ _ _ _ _ _ _ _ _ _ _ _ _ H)
    as (t & Ht & _ & Hfail & _).
  eexists _, t. split; [vm_compute; reflexivity|]. split; [exact Ht|].
  apply (Hfail (Raised _ "trainer rejected")). vm_compute. reflexivity.
Defined.

Lemma channels_along_the_chain_witness :
  sample_run quiet_framework (Some 1) sample_state =
    (sample_final_state, inr sample_pipeline) /\
  exists trainer model_resolver,
    components sample_pipeline !! 4 = Some trainer /\
    components sample_pipeline !! 5 = Some model_resolver /\
    input_of model_resolver "model" = Some (VChannel (TypedChannel Model)) /\
    input_of model_resolver "model_blessing" =
      Some (VChannel (TypedChannel ModelBlessing)) /\
    forall key param, ~ feeds trainer key model_resolver param.
Proof.
  assert (H : sample_run quiet_framework (Some 1) sample_state =
              (sample_final_state, inr sample_pipeline))
    by (vm_compute; reflexivity).
  split; [exact H|]. unfold sample_run in H.
  destruct (channels_along_the_chain _ _ _ _ _ _ _ _ _ _ _ _ _ _ _ _ _ H)
    as (eg & sg & sc & tf & tr & rs & ev & pu & hp & Hc & _ & _ & _ & _ & _
        & _ & _ & _ & Hm & Hb & Hnone & _).
  exists tr, rs. rewrite Hc. repeat split; try assumption.
  intros key param. apply Hnone.
Defined.

Lemma hf_pusher_args_mutated_in_place_witness :
  sample_run quiet_framework (Some 1) sample_state =
    (sample_final_state, inr sample_pipeline) /\
  (heap sample_state !!! 1) !! "model" = Some (VStr "stale") /\
  (heap sample_final_state !!! 1) !! "model" =
    Some (VChannel (OutputChannel 4 "model")) /\
  (heap sample_final_state !!! 1) !! "model_blessing" =
    Some (VChannel (OutputChannel 6 "blessing")) /\
  (heap sample_final_state !!! 1) !! "username" =
    (heap sample_state !!! 1) !! "username" /\
  heap sample_final_state !! 2 = heap sample_state !! 2.
Proof.
  assert (H : sample_run quiet_framework (Some 1) sample_state =
              (sample_final_state, inr sample_pipeline))
    by (vm_compute; reflexivity).
  split; [exact H|]. unfold sample_run in H.
  destruct (hf_pusher_args_mutated_in_place
              _ _ _ _ _ _ _ _ _ _ _ _ _ _
              (fun s c => eq_refl : (fw_call quiet_framework s c).1 = heap s)
              _ _ _ H)
    as (d & tr & ev & Hd & Htr & _ & Hev & _ & Hm & Hb & Hkeys & Hothers).
  injection Hd as <-.
  vm_compute in Htr. injection Htr as <-.
  vm_compute in Hev. injection Hev as <-.
  split; [vm_compute; reflexivity|].
  split; [exact Hm|]. split; [exact Hb|]. split.
  - apply Hkeys; discriminate.
  - apply Hothers. discriminate.
Defined.

(** C1 as the specification words it fails.  Built by a framework that
    orders components as TFX does, the pipeline object of the sample call
    lists the resolver second and HFPusher before the VertexPusher: the
    order of the returned object's list is not the order of assembly. *)
Lemma returned_components_are_reordered :
  sample_run quiet_framework (Some 1) sample_state =
    (sample_final_state, inr sample_pipeline) /\
  kind <$> built_components quiet_framework sample_pipeline =
    [ImportExampleGen; Resolver; StatisticsGen; SchemaGen; Transform;
     VertexTrainer; Evaluator; HFPusher; VertexPusher] /\
  kind <$> built_components quiet_framework sample_pipeline <>
    [ImportExampleGen; StatisticsGen; SchemaGen; Transform; VertexTrainer;
     Resolver; Evaluator; VertexPusher; HFPusher].
Proof.
  split; [vm_compute; reflexivity|]. split; [vm_compute; reflexivity|].
  intros E. vm_compute in E. discriminate E.
Qed.

(** C4 as the specification words it fails: with a framework in which no
    call raises, a [modules] dictionary without "preprocessing_fn" makes
    [create_pipeline] fail with the [KeyError] of its own subscript,
    before the Transform constructor is called; and
    [hf_pusher_args = None] makes it fail with the [TypeError] of its own
    item assignment, before the HFPusher constructor is called.  Neither
    exception was raised by a constructor or by the orchestrator. *)
Lemma own_subscripts_raise :
  (exists s',
     sample_run quiet_framework (Some 1) no_modules_state =
       (s', inl (KeyError "preprocessing_fn")) /\
     Forall returned (trace s') /\
     constructed (trace s') = [ImportExampleGen; StatisticsGen; SchemaGen]) /\
  ~ raised_by_framework (KeyError "preprocessing_fn") /\
  (exists s',
     sample_run quiet_framework None sample_state =
       (s', inl (TypeError
                   "'NoneType' object does not support item assignment")) /\
     Forall returned (trace s') /\
     constructed (trace s') =
       [ImportExampleGen; StatisticsGen; SchemaGen; Transform;
        VertexTrainer; Resolver; Evaluator; VertexPusher]) /\
  ~ raised_by_framework
      (TypeError "'NoneType' object does not support item assignment").
Proof.
  split; [|split; [|split]].
  - eexists. split; [vm_compute; reflexivity|]. split.
    + repeat (apply Forall_cons; split; [reflexivity|]). apply Forall_nil_2.
    + vm_compute. reflexivity.
  - intros (c & msg & [=]).
  - eexists. split; [vm_compute; reflexivity|]. split.
    + repeat (apply Forall_cons; split; [reflexivity|]). apply Forall_nil_2.
    + vm_compute. reflexivity.
  - intros (c & msg & [=]).
Qed.

(** C6 as the specification words it fails on the train-to-resolve arrow:
    in the pipeline of the sample call the resolver's [model] and
    [model_blessing] are not outputs of the trainer. *)
Lemma resolver_not_fed_by_trainer :
  sample_run quiet_framework (Some 1) sample_state =
    (sample_final_state, inr sample_pipeline) /\
  ~ resolver_fed_by_trainer sample_pipeline.
Proof.
  split; [vm_compute; reflexivity|].
  intros (tr & rs & Htr & Hrs & [key Hkey] & _).
  vm_compute in Htr. injection Htr as <-.
  vm_compute in Hrs. injection Hrs as <-.
  unfold feeds, input_of, output_of in Hkey. cbn [init_args node] in Hkey.
  vm_compute in Hkey. discriminate Hkey.
Qed.

(** ** Further properties of [create_pipeline] *)

Section More.
Variable F : Framework.
Variables pipeline_name pipeline_root data_path : string.
Variable modules : nat.
Variables train_args eval_args eval_configs : value.
Variable metadata_connection_config : option value.
Variables ai_platform_training_args ai_platform_serving_args : option nat.
Variables example_gen_beam_args transform_beam_args : option (list value).
Variable hf_pusher_args : option nat.

(** Whatever the outcome, the constructors [create_pipeline] has called
    are an initial stretch of the nine, in source order: it never
    constructs a component before the ones above it in the source were
    constructed.  When it returns, all nine were constructed and the
    last foreign call is the [Pipeline] constructor, which received
    exactly the pipeline returned. *)
Theorem constructors_called_in_order s s' r :
  (create_pipeline F pipeline_name pipeline_root data_path modules
     train_args eval_args eval_configs metadata_connection_config
     ai_platform_training_args ai_platform_serving_args
     example_gen_beam_args transform_beam_args hf_pusher_args) s
  = (s', r) ->
  exists t,
    trace s' = trace s ++ t /\
    constructed t `prefix_of` assembly_order /\
    match r with
    | inr p =>
        constructed t = assembly_order /\
        last t = Some (PipelineInit p, None)
    | inl _ => True
    end.
Proof.
  intros H. destruct r as [e|p].
  - run_failed H ltac:(
      forget_calls; unfold logged in *; subst; cbn [trace];
      rewrite <- ?app_assoc; eexists; split; [reflexivity|];
      rewrite ?constructed_app, ?constructed_beam_calls;
      split; [|exact I]; eexists; reflexivity).
  - run H. forget_calls. unfold logged in *. subst. cbn [trace].
    rewrite <- ?app_assoc. eexists. split; [reflexivity|].
    rewrite ?constructed_app, ?constructed_beam_calls.
    split; [exists []; reflexivity|]. split; [reflexivity|].
    rewrite !app_assoc. apply last_snoc.
Qed.

(** When [create_pipeline] returns, the pipeline carries the
    [pipeline_name], [pipeline_root] and [metadata_connection_config] it
    was called with, and ImportExampleGen reads from [data_path]. *)
Theorem pipeline_fields_forwarded s s' p :
  (create_pipeline F pipeline_name pipeline_root data_path modules
     train_args eval_args eval_configs metadata_connection_config
     ai_platform_training_args ai_platform_serving_args
     example_gen_beam_args transform_beam_args hf_pusher_args) s
  = (s', inr p) ->
  labelled p pipeline_name pipeline_root metadata_connection_config /\
  exists example_gen,
    components p !! 0 = Some example_gen /\
    input_of example_gen "input_base" = Some (VStr data_path).
Proof.
  intros H. run H. split; [repeat split|]. cbn [components].
  eexists. split; [reflexivity|]. read_input.
Qed.

(** When [create_pipeline] returns, [with_id] was called once, on the
    resolver, with "latest_blessed_model_resolver"; every other component
    keeps the id the framework gives it. *)
Theorem only_the_resolver_is_renamed s s' p :
  (create_pipeline F pipeline_name pipeline_root data_path modules
     train_args eval_args eval_configs metadata_connection_config
     ai_platform_training_args ai_platform_serving_args
     example_gen_beam_args transform_beam_args hf_pusher_args) s
  = (s', inr p) ->
  exists model_resolver t,
    components p !! 5 = Some model_resolver /\
    trace s' = trace s ++ t /\
    id_receivers t =
      [(node model_resolver, "latest_blessed_model_resolver")] /\
    forall c, c ∈ components p ->
      component_id c =
        if decide (kind c = Resolver)
        then Some "latest_blessed_model_resolver" else None.
Proof.
  intros H. run H. forget_calls. unfold logged in *. subst.
  cbn [components trace]. rewrite <- ?app_assoc. do 2 eexists.
  split; [reflexivity|]. split; [reflexivity|]. split.
  - rewrite ?id_receivers_app, ?id_receivers_beam_calls. reflexivity.
  - intros c Hc. rewrite ?elem_of_cons, elem_of_nil in Hc.
    destruct Hc as [->|[->|[->|[->|[->|[->|[->|[->|[->|[]]]]]]]]]];
      reflexivity.
Qed.

(** With [hf_pusher_args] left at its default [None], [create_pipeline]
    never returns, in any framework: it fails, and the HFPusher
    constructor is not among the calls it made. *)
Theorem none_hf_pusher_args_never_returns s s' r :
  hf_pusher_args = None ->
  (create_pipeline F pipeline_name pipeline_root data_path modules
     train_args eval_args eval_configs metadata_connection_config
     ai_platform_training_args ai_platform_serving_args
     example_gen_beam_args transform_beam_args hf_pusher_args) s
  = (s', r) ->
  exists e t,
    r = inl e /\ trace s' = trace s ++ t /\ HFPusher ∉ constructed t.
Proof.
  intros Hnone H. destruct r as [e|p].
  - exists e.
    run_failed H ltac:(idtac).
    all: try discriminate Hnone.
    all: forget_calls; unfold logged in *; subst; cbn [trace].
    all: rewrite <- ?app_assoc; eexists; split; [reflexivity|].
    all: split; [reflexivity|]; read_constructed.
    all: rewrite ?elem_of_cons, elem_of_nil; intuition discriminate.
  - run H. discriminate Hnone.
Qed.

Section Kept.
(** The framework's calls leave the caller's dictionaries as they are. *)
Hypothesis fw_keeps_heap : forall s c, (fw_call F s c).1 = heap s.

(** When [create_pipeline] fails, the caller's dictionaries are as they
    were, unless the failure is an exception of the HFPusher constructor
    or of the [Pipeline] constructor: then [hf_pusher_args] already holds
    the two entries written at lines 119-120.  Nothing is rolled back. *)
Theorem dictionaries_after_a_failure s s' e :
  (create_pipeline F pipeline_name pipeline_root data_path modules
     train_args eval_args eval_configs metadata_connection_config
     ai_platform_training_args ai_platform_serving_args
     example_gen_beam_args transform_beam_args hf_pusher_args) s
  = (s', inl e) ->
  match e with
  | Raised (Init HFPusher _) _ | Raised (PipelineInit _) _ =>
      exists d,
        hf_pusher_args = Some d /\
        heap s' =
          <[d := <["model_blessing" :=
                     VChannel (OutputChannel (6 + next_node s) "blessing")]>
                   (<["model" :=
                        VChannel (OutputChannel (4 + next_node s) "model")]>
                      (heap s !!! d))]> (heap s)
  | _ => heap s' = heap s
  end.
Proof.
  intros H.
  run_failed H ltac:(
    cbn [heap]; frame_with fw_keeps_heap;
    first
      [ reflexivity
      | congruence
      | eexists; split; [reflexivity|];
        cbn [heap Nat.add]; rewrite lookup_total_insert_eq, insert_insert_eq;
        reflexivity ]).
Qed.

(** When [create_pipeline] returns, Transform was given
    [modules["preprocessing_fn"]] as [preprocessing_fn] and the raw
    examples of ImportExampleGen; the trainer was given
    [modules["training_fn"]] as [run_fn], the schema of SchemaGen, and
    [train_args] and [eval_args] as passed.  The module paths are the
    ones [modules] held when the function was called. *)
Theorem module_paths_forwarded s s' p :
  (create_pipeline F pipeline_name pipeline_root data_path modules
     train_args eval_args eval_configs metadata_connection_config
     ai_platform_training_args ai_platform_serving_args
     example_gen_beam_args transform_beam_args hf_pusher_args) s
  = (s', inr p) ->
  exists example_gen schema_gen transform trainer,
    components p !! 0 = Some example_gen /\
    components p !! 2 = Some schema_gen /\
    components p !! 3 = Some transform /\
    components p !! 4 = Some trainer /\
    input_of transform "preprocessing_fn" =
      (heap s !!! modules) !! "preprocessing_fn" /\
    is_Some (input_of transform "preprocessing_fn") /\
    input_of trainer "run_fn" = (heap s !!! modules) !! "training_fn" /\
    is_Some (input_of trainer "run_fn") /\
    feeds example_gen "examples" transform "examples" /\
    feeds schema_gen "schema" trainer "schema" /\
    input_of trainer "train_args" = Some train_args /\
    input_of trainer "eval_args" = Some eval_args /\
    kind example_gen = ImportExampleGen /\ kind schema_gen = SchemaGen /\
    kind transform = Transform /\ kind trainer = VertexTrainer.
Proof.
  intros H. run H. frame_with fw_keeps_heap.
  all: cbn [components]; do 4 eexists; do 4 (split; [reflexivity|]).
  all: unfold feeds, is_Some.
  all: repeat split; try read_input.
  all: try match goal with |- kind _ = _ => reflexivity end.
  all: unfold input_of; cbn [init_args]; rewrite lookup_dict_display;
    cbn [last_bound String.eqb Ascii.eqb Bool.eqb];
    first [symmetry; assumption | eexists; reflexivity].
Qed.

(** When [create_pipeline] returns, the keyword arguments of HFPusher
    are the contents of [hf_pusher_args] after the call: the caller's
    keys together with "model" and "model_blessing", each of the caller's
    other entries passed on with the value the caller gave it. *)
Theorem hf_pusher_receives_the_callers_settings s s' p :
  (create_pipeline F pipeline_name pipeline_root data_path modules
     train_args eval_args eval_configs metadata_connection_config
     ai_platform_training_args ai_platform_serving_args
     example_gen_beam_args transform_beam_args hf_pusher_args) s
  = (s', inr p) ->
  exists d hf_pusher,
    hf_pusher_args = Some d /\
    components p !! 8 = Some hf_pusher /\ kind hf_pusher = HFPusher /\
    init_args hf_pusher = heap s' !!! d /\
    dom (init_args hf_pusher) =
      dom (heap s !!! d) ∪ {["model"; "model_blessing"]} /\
    forall key, key <> "model" -> key <> "model_blessing" ->
      input_of hf_pusher key = (heap s !!! d) !! key.
Proof.
  intros H. run H. frame_with fw_keeps_heap.
  all: cbn [components heap]; do 2 eexists; do 3 (split; [reflexivity|]).
  all: cbn [init_args]; rewrite !lookup_total_insert_eq.
  all: split; [reflexivity|]; split.
  all: try (rewrite !dom_insert_L; apply set_eq; intros k;
            rewrite !elem_of_union; tauto).
  all: intros key Hm Hb; unfold input_of; cbn [init_args];
    rewrite !lookup_insert_ne by done; reflexivity.
Qed.

(** When the caller passes one dictionary as both
    [ai_platform_serving_args] and [hf_pusher_args], the [custom_config]
    the VertexPusher was constructed with is that dictionary, and after
    the call it holds the "model" and "model_blessing" entries written
    for HFPusher. *)
Theorem shared_dictionary_is_changed_behind_the_pusher s s' p :
  (create_pipeline F pipeline_name pipeline_root data_path modules
     train_args eval_args eval_configs metadata_connection_config
     ai_platform_training_args ai_platform_serving_args
     example_gen_beam_args transform_beam_args hf_pusher_args) s
  = (s', inr p) ->
  ai_platform_serving_args = hf_pusher_args ->
  exists d trainer evaluator pusher,
    hf_pusher_args = Some d /\
    components p !! 4 = Some trainer /\
    components p !! 6 = Some evaluator /\
    components p !! 7 = Some pusher /\ kind pusher = VertexPusher /\
    input_of pusher "custom_config" = Some (VDict d) /\
    (heap s' !!! d) !! "model" = Some (output_of trainer "model") /\
    (heap s' !!! d) !! "model_blessing" =
      Some (output_of evaluator "blessing").
Proof.
  intros H Halias. run H. subst. frame_with fw_keeps_heap.
  all: cbn [components heap]; do 4 eexists; do 5 (split; [reflexivity|]).
  all: split; [read_input|].
  all: unfold output_of; cbn [node]; rewrite !lookup_total_insert_eq.
  all: split; [rewrite lookup_insert_ne by done|]; apply lookup_insert_eq.
Qed.

End Kept.

Section Quiet.
(** Every call into the framework returns, and leaves the caller's
    dictionaries as they are. *)
Hypothesis fw_quiet : forall s c, fw_call F s c = (heap s, None).

(** In a framework whose calls all return, [create_pipeline] returns
    exactly when [modules] has both "preprocessing_fn" and "training_fn",
    [hf_pusher_args] is not [None], and the components declare the
    outputs the source subscripts. *)
Theorem returns_exactly_when s :
  (exists s' p,
     (create_pipeline F pipeline_name pipeline_root data_path modules
        train_args eval_args eval_configs metadata_connection_config
        ai_platform_training_args ai_platform_serving_args
        example_gen_beam_args transform_beam_args hf_pusher_args) s
     = (s', inr p)) <->
  is_Some ((heap s !!! modules) !! "preprocessing_fn") /\
  is_Some ((heap s !!! modules) !! "training_fn") /\
  is_Some hf_pusher_args /\
  Forall (fun ko => fw_output F ko.1 ko.2 = true) outputs_read.
Proof.
  assert (Hkeep : forall s c, (fw_call F s c).1 = heap s)
    by (intros s0 c; rewrite fw_quiet; reflexivity).
  split.
  - intros (s' & p & H). run H. frame_with Hkeep.
    all: unfold is_Some, outputs_read.
    all: repeat split; eauto.
    all: repeat (apply Forall_cons; split; [assumption|]).
    all: apply Forall_nil_2.
  - intros (Hpre & Hrun & Hhf & Hout).
    unfold outputs_read in Hout.
    repeat (apply Forall_cons_1 in Hout as [? Hout]).
    cbn [fst snd] in *.
    destruct Hpre as [pre Hpre], Hrun as [run_fn Hrun], Hhf as [d ->].
    match goal with
    | |- exists s' p, ?m s = _ =>
        destruct (m s) as [s' [e|p]] eqn:Hcp; [exfalso|eauto]
    end.
    run_failed Hcp ltac:(
      first
        [ match goal with
          | Hf : fw_call _ _ _ = (_, Some _) |- _ =>
              rewrite fw_quiet in Hf; discriminate Hf
          end
        | frame_with Hkeep; congruence ]).
Qed.
(** The components declare the outputs the source subscripts. *)
Hypothesis outputs_declared :
  Forall (fun ko => fw_output F ko.1 ko.2 = true) outputs_read.

(** In a framework whose calls all return and whose components declare
    the outputs read, the first missing argument decides the outcome: no
    "preprocessing_fn" gives [KeyError] after three constructors; else no
    "training_fn" gives [KeyError] after four; else
    [hf_pusher_args = None] gives [TypeError] after eight; else the call
    returns, all nine constructed. *)
Theorem first_missing_argument_decides s s' r :
  (create_pipeline F pipeline_name pipeline_root data_path modules
     train_args eval_args eval_configs metadata_connection_config
     ai_platform_training_args ai_platform_serving_args
     example_gen_beam_args transform_beam_args hf_pusher_args) s
  = (s', r) ->
  exists t,
    trace s' = trace s ++ t /\
    match (heap s !!! modules) !! "preprocessing_fn" with
    | None =>
        r = inl (KeyError "preprocessing_fn") /\
        constructed t = [ImportExampleGen; StatisticsGen; SchemaGen]
    | Some _ =>
        match (heap s !!! modules) !! "training_fn" with
        | None =>
            r = inl (KeyError "training_fn") /\
            constructed t =
              [ImportExampleGen; StatisticsGen; SchemaGen; Transform]
        | Some _ =>
            match hf_pusher_args with
            | None =>
                r = inl (TypeError
                   "'NoneType' object does not support item assignment") /\
                constructed t =
                  [ImportExampleGen; StatisticsGen; SchemaGen; Transform;
                   VertexTrainer; Resolver; Evaluator; VertexPusher]
            | Some _ =>
                (exists p, r = inr p) /\ constructed t = assembly_order
            end
        end
    end.
Proof.
  assert (Hkeep : forall s c, (fw_call F s c).1 = heap s)
    by (intros s0 c; rewrite fw_quiet; reflexivity).
  pose proof outputs_declared as Hout. unfold outputs_read in Hout.
  repeat (apply Forall_cons_1 in Hout as [? Hout]). cbn [fst snd] in *.
  intros Hcp. destruct r as [e|p].
  - run_failed Hcp ltac:(idtac).
    all: try match goal with
           | Hf : fw_call _ _ _ = (_, Some _) |- _ =>
               rewrite fw_quiet in Hf; discriminate Hf
           end.
    all: try congruence.
    all: frame_with Hkeep; unfold logged in *; subst; cbn [trace].
    all: rewrite <- ?app_assoc; eexists; (split; [reflexivity|]).
    all: repeat match goal with
           | Hx : (heap _ !!! _) !! _ = _ |- _ => rewrite Hx; clear Hx
           end.
    all: read_constructed; split; reflexivity.
  - run Hcp. frame_with Hkeep.
    all: unfold logged in *; subst; cbn [trace].
    all: rewrite <- ?app_assoc; eexists; (split; [reflexivity|]).
    all: repeat match goal with
           | Hx : (heap _ !!! _) !! _ = _ |- _ => rewrite Hx; clear Hx
           end.
    all: read_constructed; split; [eexists; reflexivity|reflexivity].
Qed.
End Quiet.

End More.

(** ** The further properties on sample calls *)

Lemma constructors_called_in_order_witness :
  exists t,
    trace (sample_run failing_trainer_framework (Some 1) sample_state).1 =
      trace sample_state ++ t /\
    constructed t `prefix_of` assembly_order /\
    constructed t =
      [ImportExampleGen; StatisticsGen; SchemaGen; Transform; VertexTrainer].
Proof.
  assert (H : sample_run failing_trainer_framework (Some 1) sample_state =
              ((sample_run failing_trainer_framework (Some 1)
                  sample_state).1,
               (sample_run failing_trainer_framework (Some 1)
                  sample_state).2))
    by (vm_compute; reflexivity).
  unfold sample_run in H.
  destruct (constructors_called_in_order
              _ _ _ _ _ _ _ _ _ _ _ _ _ _ _ _ _ H)
    as (t & Ht & Hprefix & _).
  exists t. split; [exact Ht|]. split; [exact Hprefix|].
  apply (f_equal constructed) in Ht. rewrite constructed_app in Ht.
  vm_compute in Ht. symmetry. exact Ht.
Defined.

Lemma pipeline_fields_forwarded_witness :
  exists s' p,
    sample_run quiet_framework (Some 1) sample_state = (s', inr p) /\
    labelled p "segmentation" "gs://bucket/root" None.
Proof.
  assert (H : exists s' p,
             sample_run quiet_framework (Some 1) sample_state = (s', inr p))
    by (eexists _, _; vm_compute; reflexivity).
  destruct H as (s' & p & H). exists s', p. split; [exact H|].
  unfold sample_run in H.
  exact (proj1 (pipeline_fields_forwarded
                  _ _ _ _ _ _ _ _ _ _ _ _ _ _ _ _ _ H)).
Defined.

Lemma only_the_resolver_is_renamed_witness :
  exists s' p model_resolver t,
    sample_run quiet_framework (Some 1) sample_state = (s', inr p) /\
    components p !! 5 = Some model_resolver /\
    trace s' = trace sample_state ++ t /\
    id_receivers t =
      [(node model_resolver, "latest_blessed_model_resolver")].
Proof.
  assert (H : exists s' p,
             sample_run quiet_framework (Some 1) sample_state = (s', inr p))
    by (eexists _, _; vm_compute; reflexivity).
  destruct H as (s' & p & H). exists s', p.
  pose proof H as H'. unfold sample_run in H'.
  destruct (only_the_resolver_is_renamed
              _ _ _ _ _ _ _ _ _ _ _ _ _ _ _ _ _ H')
    as (rs & t & H5 & Ht & Hid & _).
  exists rs, t. repeat split; assumption.
Defined.

Lemma none_hf_pusher_args_never_returns_witness :
  exists e, (sample_run quiet_framework None sample_state).2 = inl e.
Proof.
  assert (H : sample_run quiet_framework None sample_state =
              ((sample_run quiet_framework None sample_state).1,
               (sample_run quiet_framework None sample_state).2))
    by (vm_compute; reflexivity).
  unfold sample_run in H.
  destruct (none_hf_pusher_args_never_returns
              _ _ _ _ _ _ _ _ _ _ _ _ _ _ _ _ _ eq_refl H)
    as (e & t & He & _).
  exists e. exact He.
Defined.

Lemma dictionaries_after_a_failure_witness :
  exists s' kwargs,
    sample_run failing_hf_pusher_framework (Some 1) sample_state =
      (s', inl (Raised (Init HFPusher kwargs) "hub unreachable")) /\
    heap s' =
      <[1 := <["model_blessing" :=
                 VChannel (OutputChannel 6 "blessing")]>
               (<["model" := VChannel (OutputChannel 4 "model")]>
                  (heap sample_state !!! 1))]> (heap sample_state).
Proof.
  assert (H : exists s' kwargs,
             sample_run failing_hf_pusher_framework (Some 1) sample_state =
             (s', inl (Raised (Init HFPusher kwargs) "hub unreachable")))
    by (eexists _, _; vm_compute; reflexivity).
  destruct H as (s' & kwargs & H). exists s', kwargs. split; [exact H|].
  unfold sample_run in H.
  assert (Hkeep : forall s c,
             (fw_call failing_hf_pusher_framework s c).1 = heap s)
    by (intros s c; destruct c as [[] ?| | |]; reflexivity).
  destruct (dictionaries_after_a_failure
              _ _ _ _ _ _ _ _ _ _ _ _ _ _ Hkeep _ _ _ H)
    as (d & Hd & Hheap).
  injection Hd as <-. exact Hheap.
Defined.

Lemma module_paths_forwarded_witness :
  exists s' p transform trainer,
    sample_run quiet_framework (Some 1) sample_state = (s', inr p) /\
    components p !! 3 = Some transform /\
    components p !! 4 = Some trainer /\
    input_of transform "preprocessing_fn" =
      Some (VStr "preprocessing.preprocessing_fn") /\
    input_of trainer "run_fn" = Some (VStr "training.run_fn").
Proof.
  assert (H : exists s' p,
             sample_run quiet_framework (Some 1) sample_state = (s', inr p))
    by (eexists _, _; vm_compute; reflexivity).
  destruct H as (s' & p & H). exists s', p.
  pose proof H as H'. unfold sample_run in H'.
  destruct (module_paths_forwarded
              quiet_framework _ _ _ _ _ _ _ _ _ _ _ _ _ (fun s c => eq_refl) _ _ _ H')
    as (eg & sc & tf & tr & _ & _ & H3 & H4 & Hpre & _ & Hrun & _).
  exists tf, tr. split; [exact H|]. split; [exact H3|]. split; [exact H4|].
  split; [rewrite Hpre|rewrite Hrun]; vm_compute; reflexivity.
Defined.

Lemma hf_pusher_receives_the_callers_settings_witness :
  exists s' p hf_pusher,
    sample_run quiet_framework (Some 1) sample_state = (s', inr p) /\
    components p !! 8 = Some hf_pusher /\
    init_args hf_pusher = heap s' !!! 1 /\
    input_of hf_pusher "username" = Some (VStr "user").
Proof.
  assert (H : exists s' p,
             sample_run quiet_framework (Some 1) sample_state = (s', inr p))
    by (eexists _, _; vm_compute; reflexivity).
  destruct H as (s' & p & H). exists s', p.
  pose proof H as H'. unfold sample_run in H'.
  destruct (hf_pusher_receives_the_callers_settings
              quiet_framework _ _ _ _ _ _ _ _ _ _ _ _ _ (fun s c => eq_refl) _ _ _ H')
    as (d & hp & Hd & H8 & _ & Hargs & _ & Hkeys).
  injection Hd as <-. exists hp.
  split; [exact H|]. split; [exact H8|]. split; [exact Hargs|].
  rewrite Hkeys by discriminate. vm_compute. reflexivity.
Defined.

Lemma shared_dictionary_is_changed_behind_the_pusher_witness :
  exists s' p trainer pusher,
    sample_run quiet_framework (Some 2) sample_state = (s', inr p) /\
    components p !! 4 = Some trainer /\
    components p !! 7 = Some pusher /\
    input_of pusher "custom_config" = Some (VDict 2) /\
    (heap sample_state !!! 2) !! "model" = None /\
    (heap s' !!! 2) !! "model" = Some (output_of trainer "model").
Proof.
  assert (H : exists s' p,
             sample_run quiet_framework (Some 2) sample_state = (s', inr p))
    by (eexists _, _; vm_compute; reflexivity).
  destruct H as (s' & p & H). exists s', p.
  pose proof H as H'. unfold sample_run in H'.
  destruct (shared_dictionary_is_changed_behind_the_pusher
              quiet_framework _ _ _ _ _ _ _ _ _ _ _ _ _ (fun s c => eq_refl) _ _ _ H'
              eq_refl)
    as (d & tr & ev & pu & Hd & H4 & _ & H7 & _ & Hcfg & Hmodel & _).
  injection Hd as <-. exists tr, pu.
  split; [exact H|]. split; [exact H4|]. split; [exact H7|].
  split; [exact Hcfg|]. split; [vm_compute; reflexivity|exact Hmodel].
Defined.

Lemma returns_exactly_when_witness :
  exists s' p,
    sample_run quiet_framework (Some 1) sample_state = (s', inr p).
Proof.
  unfold sample_run.
  apply (proj2 (returns_exactly_when quiet_framework
                  "segmentation" "gs://bucket/root" "gs://bucket/data" 0
                  (VOpaque "TrainArgs") (VOpaque "EvalArgs")
                  (VOpaque "EvalConfig") None None (Some 2)
                  (Some [VStr "--runner=DataflowRunner"]) None (Some 1)
                  (fun s c => eq_refl) sample_state)).
  split; [eexists; vm_compute; reflexivity|].
  split; [eexists; vm_compute; reflexivity|].
  split; [eexists; reflexivity|].
  repeat (apply Forall_cons; split; [vm_compute; reflexivity|]).
  apply Forall_nil_2.
Defined.

Lemma first_missing_argument_decides_witness :
  (sample_run quiet_framework (Some 1) no_modules_state).2 =
    inl (KeyError "preprocessing_fn").
Proof.
  assert (H : sample_run quiet_framework (Some 1) no_modules_state =
              ((sample_run quiet_framework (Some 1) no_modules_state).1,
               (sample_run quiet_framework (Some 1) no_modules_state).2))
    by (vm_compute; reflexivity).
  unfold sample_run in H.
  assert (Hout : Forall (fun ko => fw_output quiet_framework ko.1 ko.2 = true)
                   outputs_read).
  { repeat (apply Forall_cons; split; [vm_compute; reflexivity|]).
    apply Forall_nil_2. }
  destruct (first_missing_argument_decides
              quiet_framework _ _ _ _ _ _ _ _ _ _ _ _ _ (fun s c => eq_refl) Hout _ _ _ H)
    as (t & _ & Hcase).
  change ((heap no_modules_state !!! 0) !! "preprocessing_fn")
    with (@None value) in Hcase.
  exact (proj1 Hcase).
Defined.
